(** * BeamNG to MSAgent-AI bridge: a shallow embedding of [bridge.py]

    The bridge receives HTTP requests describing game events and forwards
    each one as a line of text to the MSAgent-AI process over a named pipe.
    This development embeds [send_to_msagent] and the six route handlers of
    [src/beamng-bridge/bridge.py] and states their properties.

    Python values are modelled as the interpreter has them: a [str] is a
    sequence of Unicode code points, [bytes] is a sequence of bytes, a
    [float] is an IEEE binary64 number ([spec_float]), an [int] is an
    unbounded integer, a [dict] is a finite map keyed by strings. *)

From Stdlib Require Import ZArith List Ascii String SpecFloat Lia.
From Stdlib.Strings Require Import Byte.
From stdpp Require Import base gmap list.
Import ListNotations.

#[local] Set Warnings "-register-all".
#[local] Open Scope Z_scope.

(* ===================================================================== *)
(** * Python strings and bytes *)
(* ===================================================================== *)

Module PyStr.

(** A Python [str]: the sequence of its code points. *)
Definition pystr : Type := list Z.

(** A Python [bytes] object. *)
Definition pybytes : Type := list byte.

(** An ASCII literal of the source as a [str]. *)
Definition U (s : string) : pystr :=
  List.map (fun a => Z.of_N (N_of_ascii a)) (list_ascii_of_string s).

Definition byte_val (b : byte) : Z := Z.of_N (Byte.to_N b).

Definition byte_of_Z (z : Z) : byte :=
  match Byte.of_N (Z.to_N z) with
  | Some b => b
  | None => x00
  end.

(** ** [str.encode('utf-8')]

    The strict encoder: a surrogate code point (U+D800..U+DFFF) cannot be
    encoded and makes the call raise [UnicodeEncodeError]; [None] stands for
    that failure. *)
Definition utf8_encode_cp (c : Z) : option (list byte) :=
  if c <? 0 then None
  else if c <? 128 then Some [byte_of_Z c]
  else if c <? 2048 then
    Some [byte_of_Z (Z.lor 192 (Z.shiftr c 6));
          byte_of_Z (Z.lor 128 (Z.land c 63))]
  else if c <? 65536 then
    if (55296 <=? c) && (c <=? 57343) then None
    else
      Some [byte_of_Z (Z.lor 224 (Z.shiftr c 12));
            byte_of_Z (Z.lor 128 (Z.land (Z.shiftr c 6) 63));
            byte_of_Z (Z.lor 128 (Z.land c 63))]
  else if c <? 1114112 then
    Some [byte_of_Z (Z.lor 240 (Z.shiftr c 18));
          byte_of_Z (Z.lor 128 (Z.land (Z.shiftr c 12) 63));
          byte_of_Z (Z.lor 128 (Z.land (Z.shiftr c 6) 63));
          byte_of_Z (Z.lor 128 (Z.land c 63))]
  else None.

Fixpoint utf8_encode (s : pystr) : option pybytes :=
  match s with
  | [] => Some []
  | c :: s' =>
      match utf8_encode_cp c, utf8_encode s' with
      | Some bs, Some rest => Some (bs ++ rest)
      | _, _ => None
      end
  end.

(** ** [bytes.decode('utf-8')]

    The strict decoder: overlong forms, surrogates, code points above
    U+10FFFF, stray continuation bytes and truncated sequences are all
    rejected ([None] stands for [UnicodeDecodeError]). *)
Definition is_cont (b : Z) : bool := (128 <=? b) && (b <=? 191).

Definition in_range (lo hi b : Z) : bool := (lo <=? b) && (b <=? hi).

Definition cont_bits (b : Z) : Z := Z.land b 63.

Fixpoint utf8_decode (bs : pybytes) : option pystr :=
  match bs with
  | [] => Some []
  | b0 :: r0 =>
      let v0 := byte_val b0 in
      if v0 <? 128 then option_map (cons v0) (utf8_decode r0)
      else if in_range 194 223 v0 then
        match r0 with
        | b1 :: r1 =>
            let v1 := byte_val b1 in
            if is_cont v1 then
              option_map
                (cons (Z.lor (Z.shiftl (Z.land v0 31) 6) (cont_bits v1)))
                (utf8_decode r1)
            else None
        | _ => None
        end
      else if in_range 224 239 v0 then
        match r0 with
        | b1 :: b2 :: r2 =>
            let v1 := byte_val b1 in
            let v2 := byte_val b2 in
            let lo := if v0 =? 224 then 160 else 128 in
            let hi := if v0 =? 237 then 159 else 191 in
            if in_range lo hi v1 && is_cont v2 then
              option_map
                (cons (Z.lor (Z.shiftl (Z.land v0 15) 12)
                         (Z.lor (Z.shiftl (cont_bits v1) 6) (cont_bits v2))))
                (utf8_decode r2)
            else None
        | _ => None
        end
      else if in_range 240 244 v0 then
        match r0 with
        | b1 :: b2 :: b3 :: r3 =>
            let v1 := byte_val b1 in
            let v2 := byte_val b2 in
            let v3 := byte_val b3 in
            let lo := if v0 =? 240 then 144 else 128 in
            let hi := if v0 =? 244 then 143 else 191 in
            if in_range lo hi v1 && is_cont v2 && is_cont v3 then
              option_map
                (cons (Z.lor (Z.shiftl (Z.land v0 7) 18)
                         (Z.lor (Z.shiftl (cont_bits v1) 12)
                            (Z.lor (Z.shiftl (cont_bits v2) 6) (cont_bits v3)))))
                (utf8_decode r3)
            else None
        | _ => None
        end
      else None
  end.

(** ** [str.strip()]

    Without an argument [strip] removes every leading and every trailing
    character [c] for which [c.isspace()] holds. *)
Definition isspace (c : Z) : bool :=
  in_range 9 13 c || in_range 28 32 c || (c =? 133) || (c =? 160)
  || (c =? 5760) || in_range 8192 8202 c || (c =? 8232) || (c =? 8233)
  || (c =? 8239) || (c =? 8287) || (c =? 12288).

Fixpoint lstrip (s : pystr) : pystr :=
  match s with
  | [] => []
  | c :: s' => if isspace c then lstrip s' else s
  end.

Definition rstrip (s : pystr) : pystr := rev (lstrip (rev s)).

Definition strip (s : pystr) : pystr := rstrip (lstrip s).

(** ** The [in] operator on strings: substring search. *)
Fixpoint startswith (p s : pystr) : bool :=
  match p, s with
  | [], _ => true
  | _ :: _, [] => false
  | a :: p', b :: s' => (a =? b) && startswith p' s'
  end.

Fixpoint contains (needle hay : pystr) : bool :=
  startswith needle hay ||
  match hay with
  | [] => false
  | _ :: hay' => contains needle hay'
  end.

(** ** Decimal rendering of a non-negative integer. *)
Fixpoint digits_fuel (fuel : nat) (n : Z) (acc : pystr) : pystr :=
  match fuel with
  | O => acc
  | S fuel' =>
      let acc' := (48 + n mod 10) :: acc in
      if n <? 10 then acc' else digits_fuel fuel' (n / 10) acc'
  end.

Definition digits (n : Z) : pystr :=
  digits_fuel (S (Z.to_nat (Z.log2 n))) n [].

(** [str(n)] for an [int]. *)
Definition str_int (n : Z) : pystr :=
  if n <? 0 then U "-" ++ digits (- n) else digits n.

End PyStr.
Import PyStr.

(* ===================================================================== *)
(** * Python values, exceptions and string formatting *)
(* ===================================================================== *)

Module PyVal.

(** What [request.json] can hand to a route: the Python image of a JSON
    document.  JSON [true]/[false] are [bool], numbers without fraction or
    exponent are [int], the other numbers are [float] (binary64; the
    decoder also accepts [NaN] and [Infinity]), objects are [dict]. *)
Inductive pyval : Type :=
  | PyNone
  | PyBool (b : bool)
  | PyInt (n : Z)
  | PyFloat (x : spec_float)
  | PyStr (s : pystr)
  | PyList (l : list pyval)
  | PyDict (d : gmap pystr pyval).

Inductive exn_class : Type :=
  | AttributeError
  | TypeError
  | ValueError
  | OverflowError
  | UnicodeEncodeError
  | UnicodeDecodeError.

(** Exceptions.  [pywintypes_error] is what every [win32file] call raises
    on failure; the others are ordinary subclasses of [Exception], carried
    with the text that [str(e)] gives. *)
Inductive exn : Type :=
  | pywintypes_error (winerror : Z) (funcname strerror : pystr)
  | PyExc (cls : exn_class) (msg : pystr).

(** The result of running a piece of Python: a value, a raised exception,
    or a call that blocks and never comes back. *)
Inductive outcome (A : Type) : Type :=
  | Ret (a : A)
  | Raise (e : exn)
  | Hang.
Arguments Ret {A} a.
Arguments Raise {A} e.
Arguments Hang {A}.

#[export] Instance outcome_ret : MRet outcome := fun A a => Ret a.
#[export] Instance outcome_bind : MBind outcome := fun A B k o =>
  match o with
  | Ret a => k a
  | Raise e => Raise e
  | Hang => Hang
  end.

(** Renderings that belong to the interpreter and to pywin32, not to the
    bridge: [repr] of floats and containers, [str] of a [pywintypes.error]
    and the message of a codec error. *)
Record interp : Type := {
  py_repr : pyval -> pystr;
  str_winerror : Z -> pystr -> pystr -> pystr;
  encode_error_msg : pystr -> pystr;
  decode_error_msg : pybytes -> pystr
}.

(** ** [float(n)] for an [int]: round to nearest even, [OverflowError]
    when the result does not fit binary64. *)
Definition int_to_float (n : Z) : option spec_float :=
  match binary_normalize 53 1024 n 0 false with
  | S754_infinity _ => None
  | x => Some x
  end.

(** ** Fixed-point formatting, the ['.Nf'] format specification.

    The digits are those of the exact binary value, rounded half to even
    to [prec] decimals. *)
Definition scaled_round (prec : nat) (m : positive) (e : Z) : Z :=
  let num := Z.pos m * 10 ^ Z.of_nat prec in
  if 0 <=? e then num * 2 ^ e
  else
    let den := 2 ^ (- e) in
    let q := num / den in
    let r := num mod den in
    if (den <? 2 * r) || ((2 * r =? den) && Z.odd q) then q + 1 else q.

Definition zero_pad (width : nat) (s : pystr) : pystr :=
  repeat 48 (width - length s)%nat ++ s.

(** [k] stands for the number [k / 10^prec]. *)
Definition fixed (prec : nat) (k : Z) : pystr :=
  let p := 10 ^ Z.of_nat prec in
  digits (k / p) ++
  match prec with
  | O => []
  | S _ => U "." ++ zero_pad prec (digits (k mod p))
  end.

Definition sign_str (s : bool) : pystr := if s then U "-" else [].

Definition format_f (prec : nat) (x : spec_float) : pystr :=
  match x with
  | S754_nan => U "nan"
  | S754_infinity s => sign_str s ++ U "inf"
  | S754_zero s => sign_str s ++ fixed prec 0
  | S754_finite s m e => sign_str s ++ fixed prec (scaled_round prec m e)
  end.

(** The two kinds of replacement field the bridge uses: [{x}] and
    [{x:.Nf}]. *)
Inductive format_spec : Type :=
  | FmtNone
  | FmtFixed (prec : nat).

Definition type_name (v : pyval) : pystr :=
  match v with
  | PyNone => U "NoneType"
  | PyBool _ => U "bool"
  | PyInt _ => U "int"
  | PyFloat _ => U "float"
  | PyStr _ => U "str"
  | PyList _ => U "list"
  | PyDict _ => U "dict"
  end.

Section Format.
Context (I : interp).

(** [str(v)] *)
Definition py_str (v : pyval) : pystr :=
  match v with
  | PyNone => U "None"
  | PyBool true => U "True"
  | PyBool false => U "False"
  | PyInt n => str_int n
  | PyStr s => s
  | PyFloat _ | PyList _ | PyDict _ => py_repr I v
  end.

Definition format_int_f (prec : nat) (n : Z) : outcome pystr :=
  match int_to_float n with
  | Some x => Ret (format_f prec x)
  | None => Raise (PyExc OverflowError (U "int too large to convert to float"))
  end.

(** [format(v, spec)], as an f-string replacement field evaluates it. *)
Definition py_format (v : pyval) (spec : format_spec) : outcome pystr :=
  match spec with
  | FmtNone => Ret (py_str v)
  | FmtFixed prec =>
      match v with
      | PyFloat x => Ret (format_f prec x)
      | PyInt n => format_int_f prec n
      | PyBool b => format_int_f prec (if b then 1 else 0)
      | PyStr _ =>
          Raise (PyExc ValueError
                   (U "Unknown format code 'f' for object of type 'str'"))
      | PyNone | PyList _ | PyDict _ =>
          Raise (PyExc TypeError
                   (U "unsupported format string passed to " ++ type_name v
                      ++ U ".__format__"))
      end
  end.

(** [str(e)] *)
Definition str_exn (e : exn) : pystr :=
  match e with
  | pywintypes_error w f s => str_winerror I w f s
  | PyExc _ msg => msg
  end.

End Format.

(** [data.get(key, default)]: only a [dict] has the method. *)
Definition py_get (data : pyval) (key : pystr) (default : pyval)
  : outcome pyval :=
  match data with
  | PyDict d =>
      Ret (match d !! key with Some v => v | None => default end)
  | _ =>
      Raise (PyExc AttributeError
               (U "'" ++ type_name data ++ U "' object has no attribute 'get'"))
  end.

End PyVal.
Import PyVal.

(* ===================================================================== *)
(** * The named pipe, the log and the monad of effects *)
(* ===================================================================== *)

Module Effects.

(** A [PyHANDLE], the object [win32file.CreateFile] returns: it wraps a
    handle of the operating system, given here by its number, and closes
    it when the object is destroyed unless [CloseHandle] did so before. *)
Definition handle : Type := Z.

(** The [win32file] calls the bridge makes, with their arguments. *)
Inductive os_call : Type :=
  | CallCreateFile (name : pystr) (access share disposition flags : Z)
  | CallWriteFile (h : handle) (data : pybytes)
  | CallReadFile (h : handle) (size : nat)
  | CallCloseHandle (h : handle).

Inductive log_level : Type := INFO | ERROR.

(** What a run leaves behind: the calls made, in order; the handles that
    are open; the log records. *)
Record world : Type := {
  trace : list os_call;
  open_handles : list handle;
  log : list (log_level * pystr)
}.

Definition world0 : world :=
  {| trace := []; open_handles := []; log := [] |}.

(** The other side of the pipe and the operating system: what each call
    meets.  [env_read] is given the bytes written on the connection so far
    and answers with the status code and the bytes the peer has made
    available. *)
Record pipe_env : Type := {
  env_create : outcome handle;
  env_write : pybytes -> outcome unit;
  env_read : pybytes -> outcome (Z * pybytes);
  env_close : outcome unit
}.

(** Effectful code: reads the environment, threads the world, ends as an
    [outcome]. *)
Definition M (A : Type) : Type := pipe_env -> world -> world * outcome A.

#[export] Instance M_ret : MRet M := fun A a _ w => (w, Ret a).

#[export] Instance M_bind : MBind M := fun A B k c env w =>
  match c env w with
  | (w', Ret a) => k a env w'
  | (w', Raise e) => (w', Raise e)
  | (w', Hang) => (w', Hang)
  end.

Definition lift {A} (o : outcome A) : M A := fun _ w => (w, o).

(** [try: body except pywintypes.error as e: h1 except Exception as e: h2].
    Every exception of the model is an [Exception]; the first clause that
    matches is taken. *)
Definition try_except {A} (body : M A) (on_win : exn -> M A)
    (on_exception : exn -> M A) : M A :=
  fun env w =>
    match body env w with
    | (w', Raise (pywintypes_error c f s)) =>
        on_win (pywintypes_error c f s) env w'
    | (w', Raise e) => on_exception e env w'
    | r => r
    end.

Definition record_call (c : os_call) (w : world) : world :=
  {| trace := trace w ++ [c]; open_handles := open_handles w; log := log w |}.

Definition set_open (hs : list handle) (w : world) : world :=
  {| trace := trace w; open_handles := hs; log := log w |}.

Fixpoint written_to (h : handle) (t : list os_call) : pybytes :=
  match t with
  | [] => []
  | CallWriteFile h' data :: t' =>
      if h =? h' then data ++ written_to h t' else written_to h t'
  | _ :: t' => written_to h t'
  end.

Definition remove_handle (h : handle) (hs : list handle) : list handle :=
  List.filter (fun h' => negb (h =? h')) hs.

(** [win32file.CreateFile] *)
Definition CreateFile (name : pystr) (access share disposition flags : Z)
  : M handle :=
  fun env w =>
    let w1 := record_call (CallCreateFile name access share disposition flags) w in
    match env_create env with
    | Ret h => (set_open (h :: open_handles w1) w1, Ret h)
    | o => (w1, o)
    end.

(** [win32file.WriteFile] *)
Definition WriteFile (h : handle) (data : pybytes) : M unit :=
  fun env w => (record_call (CallWriteFile h data) w, env_write env data).

(** [win32file.ReadFile(h, size)]: at most [size] of the available bytes. *)
Definition ReadFile (h : handle) (size : nat) : M (Z * pybytes) :=
  fun env w =>
    let w1 := record_call (CallReadFile h size) w in
    match env_read env (written_to h (trace w)) with
    | Ret (hr, avail) => (w1, Ret (hr, firstn size avail))
    | o => (w1, o)
    end.

(** [win32file.CloseHandle] *)
Definition CloseHandle (h : handle) : M unit :=
  fun env w =>
    let w1 := record_call (CallCloseHandle h) w in
    match env_close env with
    | Ret tt => (set_open (remove_handle h (open_handles w1)) w1, Ret tt)
    | o => (w1, o)
    end.

(** The handles of [hs] that were already open in [before]. *)
Definition opened_before (before hs : list handle) : list handle :=
  List.filter (fun h => existsb (Z.eqb h) before) hs.

(** A function whose [PyHANDLE] objects live in its local variables.  When
    the call returns its frame is released: the objects it created are
    destroyed and the handles they still hold are closed, so only the
    handles that were open before the call can be open after it.  This is
    the interpreter's doing, not a [win32file] call of the function: the
    trace is left as it is.  While a call is blocked it has not returned
    and its locals are alive. *)
Definition leaving_frame {A} (body : M A) : M A :=
  fun env w =>
    match body env w with
    | (w', Ret a) =>
        (set_open (opened_before (open_handles w) (open_handles w')) w', Ret a)
    | r => r
    end.

Definition logger (lvl : log_level) (msg : pystr) : M unit :=
  fun _ w =>
    ({| trace := trace w; open_handles := open_handles w;
        log := log w ++ [(lvl, msg)] |}, Ret tt).

End Effects.
Import Effects.

Declare Scope py_scope.
Delimit Scope py_scope with py.
Notation "x <- c ;; k" := (mbind (fun x => k) c)
  (at level 100, c at next level, right associativity) : py_scope.
Notation "c ;; k" := (mbind (fun _ => k) c)
  (at level 100, right associativity) : py_scope.

(* ===================================================================== *)
(** * bridge.py *)
(* ===================================================================== *)

Module Bridge.

#[local] Open Scope py_scope.

(** Constants of [win32file]. *)
Definition GENERIC_READ : Z := 2147483648.
Definition GENERIC_WRITE : Z := 1073741824.
Definition OPEN_EXISTING : Z := 3.

Definition PIPE_NAME : pystr := U "\\.\pipe\MSAgentAI".
Definition PIPE_TIMEOUT : Z := 5000.

(** An HTTP reply built by [jsonify]: status 200 and the JSON image of the
    dict. *)
Record response : Type := {
  status_code : Z;
  json : gmap pystr pyval
}.

Definition jsonify (d : gmap pystr pyval) : response :=
  {| status_code := 200; json := d |}.

Definition NL : pystr := [10].

Section WithInterp.
Context (I : interp).

Definition encode (s : pystr) : M pybytes :=
  lift (match utf8_encode s with
        | Some b => Ret b
        | None => Raise (PyExc UnicodeEncodeError (encode_error_msg I s))
        end).

Definition decode (b : pybytes) : M pystr :=
  lift (match utf8_decode b with
        | Some s => Ret s
        | None => Raise (PyExc UnicodeDecodeError (decode_error_msg I b))
        end).

(** The [try] block of [send_to_msagent]. *)
Definition round_trip (command : pystr) : M pystr :=
  handle <- CreateFile PIPE_NAME (Z.lor GENERIC_READ GENERIC_WRITE)
              0 OPEN_EXISTING 0 ;;
  command_bytes <- encode (command ++ NL) ;;
  WriteFile handle command_bytes ;;
  rd <- ReadFile handle 1024 ;;
  let '(result, data) := rd in
  decoded <- decode data ;;
  let response := strip decoded in
  CloseHandle handle ;;
  logger INFO (U "Sent: " ++ command ++ U ", Received: " ++ response) ;;
  mret response.

(** [send_to_msagent(command)] *)
Definition send_to_msagent (command : pystr) : M pystr :=
  leaving_frame
    (try_except
       (round_trip command)
       (fun e =>
          logger ERROR (U "Named pipe error: " ++ str_exn I e) ;;
          mret (U "ERROR:Could not connect to MSAgent-AI. Is it running?"))
       (fun e =>
          logger ERROR (U "Error sending to MSAgent-AI: " ++ str_exn I e) ;;
          mret (U "ERROR:" ++ str_exn I e))).

(** [GET /health] *)
Definition health : M response :=
  response <- send_to_msagent (U "PING") ;;
  let is_connected := contains (U "PONG") response in
  mret (jsonify (<[U "status" := PyStr (U "ok")]>
                (<[U "msagent_connected" := PyBool is_connected]>
                (<[U "msagent_response" := PyStr response]> ∅)))).

Definition status_ok : response :=
  jsonify (<[U "status" := PyStr (U "ok")]> ∅).

Definition get (data : pyval) (key : string) (default : pyval) : M pyval :=
  lift (py_get data (U key) default).

Definition fmt (v : pyval) (spec : format_spec) : M pystr :=
  lift (py_format I v spec).

(** [POST /vehicle] *)
Definition comment_on_vehicle (data : pyval) : M response :=
  vehicle_name <- get data "vehicle_name" (PyStr (U "Unknown")) ;;
  vehicle_model <- get data "vehicle_model" (PyStr []) ;;
  s_name <- fmt vehicle_name FmtNone ;;
  s_model <- fmt vehicle_model FmtNone ;;
  let prompt :=
    U "I just spawned a " ++ s_name ++ U " " ++ s_model
      ++ U " in BeamNG! Make an excited comment about this vehicle." in
  send_to_msagent (U "CHAT:" ++ prompt) ;;
  mret status_ok.

(** [POST /crash] *)
Definition comment_on_crash (data : pyval) : M response :=
  vehicle_name <- get data "vehicle_name" (PyStr (U "Unknown")) ;;
  speed_before <- get data "speed_before" (PyInt 0) ;;
  damage_level <- get data "damage_level" (PyInt 0) ;;
  s_name <- fmt vehicle_name FmtNone ;;
  s_speed <- fmt speed_before (FmtFixed 0) ;;
  s_damage <- fmt damage_level (FmtFixed 1) ;;
  let prompt :=
    U "I just crashed my " ++ s_name ++ U " at " ++ s_speed
      ++ U " km/h! The damage is pretty bad (" ++ s_damage
      ++ U "). React dramatically!" in
  send_to_msagent (U "CHAT:" ++ prompt) ;;
  mret status_ok.

(** [POST /dent] *)
Definition comment_on_dent (data : pyval) : M response :=
  vehicle_name <- get data "vehicle_name" (PyStr (U "Unknown")) ;;
  damage_amount <- get data "damage_amount" (PyInt 0) ;;
  s_name <- fmt vehicle_name FmtNone ;;
  let prompt :=
    U "My " ++ s_name
      ++ U " just got a big dent! Make a comment about the damage." in
  send_to_msagent (U "CHAT:" ++ prompt) ;;
  mret status_ok.

(** [POST /scratch] *)
Definition comment_on_scratch (data : pyval) : M response :=
  vehicle_name <- get data "vehicle_name" (PyStr (U "Unknown")) ;;
  s_name <- fmt vehicle_name FmtNone ;;
  let prompt :=
    U "Just scratched the paint on my " ++ s_name
      ++ U ". Make a light comment." in
  send_to_msagent (U "CHAT:" ++ prompt) ;;
  mret status_ok.

(** [POST /surroundings] *)
Definition comment_on_surroundings (data : pyval) : M response :=
  vehicle_name <- get data "vehicle_name" (PyStr (U "Unknown")) ;;
  location <- get data "location" (PyStr (U "Unknown")) ;;
  speed <- get data "speed" (PyInt 0) ;;
  s_name <- fmt vehicle_name FmtNone ;;
  s_speed <- fmt speed (FmtFixed 0) ;;
  s_location <- fmt location FmtNone ;;
  let prompt :=
    U "I'm driving my " ++ s_name ++ U " at " ++ s_speed ++ U " km/h in "
      ++ s_location ++ U ". Comment on the scene!" in
  send_to_msagent (U "CHAT:" ++ prompt) ;;
  mret status_ok.

End WithInterp.

End Bridge.
Import Bridge.

(* ===================================================================== *)
(** * Vocabulary of the statements *)
(* ===================================================================== *)

Module Vocabulary.

(** No call into the operating system blocks for ever. *)
Definition responsive (env : pipe_env) : Prop :=
  env_create env <> Hang
  /\ (forall b, env_write env b <> Hang)
  /\ (forall b, env_read env b <> Hang)
  /\ env_close env <> Hang.

(** The number of connection attempts in a trace. *)
Fixpoint count_create (t : list os_call) : nat :=
  match t with
  | [] => O
  | CallCreateFile _ _ _ _ _ :: t' => S (count_create t')
  | _ :: t' => count_create t'
  end.

(** The number of calls that close handle [h]. *)
Fixpoint count_close (h : handle) (t : list os_call) : nat :=
  match t with
  | [] => O
  | CallCloseHandle h' :: t' =>
      if h =? h' then S (count_close h t') else count_close h t'
  | _ :: t' => count_close h t'
  end.

(** The reply the specification gives for a connection that could not be
    made. *)
Definition could_not_connect : pystr :=
  U "ERROR:Could not connect to MSAgent-AI. Is it running?".

(** The string [send_to_msagent] turns an exception into. *)
Definition error_reply (I : interp) (e : exn) : pystr :=
  match e with
  | pywintypes_error _ _ _ =>
      U "ERROR:Could not connect to MSAgent-AI. Is it running?"
  | PyExc _ msg => U "ERROR:" ++ msg
  end.

(** The connection attempt, as [send_to_msagent] makes it. *)
Definition connect_call : os_call :=
  CallCreateFile PIPE_NAME 3221225472 0 3 0.

(** A value the ['f'] presentation type accepts: a [float], a [bool], or an
    [int] that converts to a [float]. *)
Definition formattable (v : pyval) : bool :=
  match v with
  | PyFloat _ | PyBool _ => true
  | PyInt n => match int_to_float n with Some _ => true | None => false end
  | _ => false
  end.

Definition to_float (v : pyval) : spec_float :=
  match v with
  | PyFloat x => x
  | PyBool b => default S754_nan (int_to_float (if b then 1 else 0))
  | PyInt n => default S754_nan (int_to_float n)
  | _ => S754_nan
  end.

(** [d.get(key, dflt)] on a [dict]. *)
Definition field (d : gmap pystr pyval) (key : string) (dflt : pyval) : pyval :=
  default dflt (d !! U key).

(** A stand-in for the interpreter's renderings, for closed examples. *)
Definition interp0 : interp :=
  {| py_repr := fun _ => U "<repr>";
     str_winerror := fun _ _ _ => U "<pywintypes.error>";
     encode_error_msg := fun _ => U "<UnicodeEncodeError>";
     decode_error_msg := fun _ => U "<UnicodeDecodeError>" |}.

(** A peer that accepts the connection and answers every request with the
    same bytes. *)
Definition peer_replying (reply : pybytes) : pipe_env :=
  {| env_create := Ret 7;
     env_write := fun _ => Ret tt;
     env_read := fun _ => Ret (0, reply);
     env_close := Ret tt |}.

(** No pipe of that name: [CreateFile] fails with ERROR_FILE_NOT_FOUND. *)
Definition peer_absent : pipe_env :=
  {| env_create :=
       Raise (pywintypes_error 2 (U "CreateFile")
                (U "The system cannot find the file specified."));
     env_write := fun _ => Ret tt;
     env_read := fun _ => Ret (0, []);
     env_close := Ret tt |}.

(** A peer that accepts the connection and the request and never answers. *)
Definition peer_silent : pipe_env :=
  {| env_create := Ret 7;
     env_write := fun _ => Ret tt;
     env_read := fun _ => Hang;
     env_close := Ret tt |}.

(** A peer whose pipe breaks before the answer: [ReadFile] fails with
    ERROR_BROKEN_PIPE. *)
Definition peer_broken_read : pipe_env :=
  {| env_create := Ret 7;
     env_write := fun _ => Ret tt;
     env_read := fun _ =>
       Raise (pywintypes_error 109 (U "ReadFile") (U "The pipe has been ended."));
     env_close := Ret tt |}.

(** A peer that closes its end before the request is written: [WriteFile]
    fails with ERROR_NO_DATA. *)
Definition peer_broken_write : pipe_env :=
  {| env_create := Ret 7;
     env_write := fun _ =>
       Raise (pywintypes_error 232 (U "WriteFile") (U "The pipe is being closed."));
     env_read := fun _ => Ret (0, []);
     env_close := Ret tt |}.

(** The bytes of an ASCII literal. *)
Definition B (s : string) : pybytes :=
  List.map (fun a => byte_of_Z (Z.of_N (N_of_ascii a))) (list_ascii_of_string s).

(** A JSON object, written as its list of members. *)
Definition member (key : string) (value : pyval) : string * pyval := (key, value).

Definition json_object (members : list (string * pyval)) : gmap pystr pyval :=
  list_to_map (List.map (fun m => (U m.1, m.2)) members).

(** The binary64 numbers 0.5 (exactly) and the one nearest to 0.2. *)
Definition float_0_5 : spec_float := S754_finite false 4503599627370496 (-53).
Definition float_0_2 : spec_float := S754_finite false 7205759403792794 (-55).

(** The number a string of decimal digits stands for. *)
Definition decimal_value (s : pystr) : Z :=
  fold_left (fun acc c => 10 * acc + (c - 48)) s 0.

Definition is_digit (c : Z) : Prop := 48 <= c <= 57.

(** White space only. *)
Definition all_space (s : pystr) : Prop := Forall (fun c => isspace c = true) s.

(** No white space at the left end. *)
Definition clean_left (s : pystr) : Prop :=
  match s with
  | [] => True
  | c :: _ => isspace c = false
  end.

(** No white space at the right end. *)
Definition clean_right (s : pystr) : Prop := clean_left (rev s).

End Vocabulary.
Import Vocabulary.

(* ===================================================================== *)
(** * Command templates *)
(* ===================================================================== *)

(** The command templates, written from the route table of the
    specification: every field is read with its default, names are
    rendered with [str], speeds with no decimal and the damage level with
    one. *)
Module Templates.
Section WithInterp.
Context (I : interp).

Definition name_of (d : gmap pystr pyval) (key : string) (dflt : string) : pystr :=
  py_str I (field d key (PyStr (U dflt))).

Definition number_of (d : gmap pystr pyval) (key : string) (prec : nat) : pystr :=
  format_f prec (to_float (field d key (PyInt 0))).

Definition vehicle_command (d : gmap pystr pyval) : pystr :=
  U "CHAT:I just spawned a " ++ name_of d "vehicle_name" "Unknown" ++ U " "
    ++ name_of d "vehicle_model" ""
    ++ U " in BeamNG! Make an excited comment about this vehicle.".

Definition crash_command (d : gmap pystr pyval) : pystr :=
  U "CHAT:I just crashed my " ++ name_of d "vehicle_name" "Unknown" ++ U " at "
    ++ number_of d "speed_before" 0 ++ U " km/h! The damage is pretty bad ("
    ++ number_of d "damage_level" 1 ++ U "). React dramatically!".

Definition dent_command (d : gmap pystr pyval) : pystr :=
  U "CHAT:My " ++ name_of d "vehicle_name" "Unknown"
    ++ U " just got a big dent! Make a comment about the damage.".

Definition scratch_command (d : gmap pystr pyval) : pystr :=
  U "CHAT:Just scratched the paint on my " ++ name_of d "vehicle_name" "Unknown"
    ++ U ". Make a light comment.".

Definition surroundings_command (d : gmap pystr pyval) : pystr :=
  U "CHAT:I'm driving my " ++ name_of d "vehicle_name" "Unknown" ++ U " at "
    ++ number_of d "speed" 0 ++ U " km/h in " ++ name_of d "location" "Unknown"
    ++ U ". Comment on the scene!".

(** What every event route does once its command is built. *)
Definition dispatch (command : pystr) : M response :=
  mbind (fun _ => mret status_ok) (send_to_msagent I command).

End WithInterp.
End Templates.
Import Templates.

(* ===================================================================== *)
(** * Example payloads *)
(* ===================================================================== *)

Module Payloads.

(** The payload of the crash scenario:
    [{"vehicle_name": "D-Series", "speed_before": 80, "damage_level": 0.5}]. *)
Definition d_series_crash : gmap pystr pyval :=
  json_object [member "vehicle_name" (PyStr (U "D-Series"));
               member "speed_before" (PyInt 80);
               member "damage_level" (PyFloat float_0_5)].

(** The same crash with the speed sent as the string ["80"]. *)
Definition d_series_crash_text_speed : gmap pystr pyval :=
  json_object [member "vehicle_name" (PyStr (U "D-Series"));
               member "speed_before" (PyStr (U "80"));
               member "damage_level" (PyFloat float_0_5)].

(** The same crash with an integer speed beyond the range of a [float]. *)
Definition d_series_crash_huge_speed : gmap pystr pyval :=
  json_object [member "vehicle_name" (PyStr (U "D-Series"));
               member "speed_before" (PyInt (2 ^ 1024));
               member "damage_level" (PyFloat float_0_5)].

(** [{"vehicle_name": "ETK K-Series", "location": "Italy", "speed": null}] *)
Definition surroundings_null_speed : gmap pystr pyval :=
  json_object [member "vehicle_name" (PyStr (U "ETK K-Series"));
               member "location" (PyStr (U "Italy"));
               member "speed" PyNone].

(** [{"vehicle_name": "D-Series", "speed_before": 80, "damage_level": "severe"}] *)
Definition d_series_crash_text_damage : gmap pystr pyval :=
  json_object [member "vehicle_name" (PyStr (U "D-Series"));
               member "speed_before" (PyInt 80);
               member "damage_level" (PyStr (U "severe"))].

(** [{"vehicle_name": "D-Series"}]: the speed and the damage level are
    missing. *)
Definition crash_name_only : gmap pystr pyval :=
  json_object [member "vehicle_name" (PyStr (U "D-Series"))].

(** [{"vehicle_name": "Pessima", "damage_amount": 0.2, "total_damage": 0.5}] *)
Definition pessima_dent : gmap pystr pyval :=
  json_object [member "vehicle_name" (PyStr (U "Pessima"));
               member "damage_amount" (PyFloat float_0_2);
               member "total_damage" (PyFloat float_0_5)].

(** [{"vehicle_name": "Pessima", "damage_amount": "a lot"}] *)
Definition pessima_dent_text : gmap pystr pyval :=
  json_object [member "vehicle_name" (PyStr (U "Pessima"));
               member "damage_amount" (PyStr (U "a lot"))].

End Payloads.
Import Payloads.

(* ===================================================================== *)
(** * The console scripts: test-pipe.py and test_bridge.py *)
(* ===================================================================== *)

Module Console.

(** A script sees the pipe and writes to standard output: [stdout] holds
    the text of each [print] call, in order. *)
Record console : Type := {
  pipe : world;
  stdout : list pystr
}.

Definition console0 : console := {| pipe := world0; stdout := [] |}.

Definition P (A : Type) : Type := pipe_env -> console -> console * outcome A.

#[export] Instance P_ret : MRet P := fun A a _ k => (k, Ret a).

#[export] Instance P_bind : MBind P := fun A B f c env k =>
  match c env k with
  | (k', Ret a) => f a env k'
  | (k', Raise e) => (k', Raise e)
  | (k', Hang) => (k', Hang)
  end.

(** Pipe code run from a script. *)
Definition on_pipe {A} (c : M A) : P A :=
  fun env k =>
    let '(w', o) := c env (pipe k) in
    ({| pipe := w'; stdout := stdout k |}, o).

Definition print (text : pystr) : P unit :=
  fun _ k => ({| pipe := pipe k; stdout := stdout k ++ [text] |}, Ret tt).

(** [leaving_frame] for a script function: the [PyHANDLE] objects of a
    call that returns are destroyed with its frame.  A call that raises
    keeps its frame alive through the traceback. *)
Definition leaving_script_frame {A} (body : P A) : P A :=
  fun env k =>
    match body env k with
    | (k', Ret a) =>
        ({| pipe := set_open (opened_before (open_handles (pipe k))
                                (open_handles (pipe k'))) (pipe k');
            stdout := stdout k' |}, Ret a)
    | r => r
    end.

(** [try: body except pywintypes.error as e: handler]: any other exception
    goes on to the caller. *)
Definition try_except_win {A} (body : P A) (on_win : exn -> P A) : P A :=
  fun env k =>
    match body env k with
    | (k', Raise (pywintypes_error c f s)) =>
        on_win (pywintypes_error c f s) env k'
    | r => r
    end.

End Console.
Import Console.

Module TestPipe.

#[local] Open Scope py_scope.

(** The marks the scripts print: U+2713 and U+2717. *)
Definition CHECK : pystr := [10003].
Definition CROSS : pystr := [10007].

Section WithInterp.
Context (I : interp).

(** The [try] block of [send_msagent_command]. *)
Definition command_round_trip (command : pystr) : M pystr :=
  pipe <- CreateFile (U "\\.\pipe\MSAgentAI")
            (Z.lor GENERIC_READ GENERIC_WRITE) 0 OPEN_EXISTING 0 ;;
  message <- encode I (command ++ NL) ;;
  WriteFile pipe message ;;
  rd <- ReadFile pipe 1024 ;;
  let '(result, data) := rd in
  decoded <- decode I data ;;
  let response := strip decoded in
  CloseHandle pipe ;;
  mret response.

(** [send_msagent_command(command)]: the response, or [None] after a
    [pywintypes.error]. *)
Definition send_msagent_command (command : pystr) : P (option pystr) :=
  leaving_script_frame
    (try_except_win
       (response <- on_pipe (command_round_trip command) ;;
        mret (Some response))
       (fun e =>
          print (U "ERROR: " ++ str_exn I e) ;;
          print (NL ++ U "Make sure MSAgent-AI is running before running this test.") ;;
          mret None)).

(** [f"{response}"] for a response that may be [None]. *)
Definition show (response : option pystr) : pystr :=
  match response with
  | Some s => s
  | None => U "None"
  end.

(** [response and response.startswith("OK:")] *)
Definition is_ok (response : option pystr) : bool :=
  match response with
  | Some s => negb (length s =? 0)%nat && startswith (U "OK:") s
  | None => false
  end.

(** [response == "PONG"] *)
Definition is_pong (response : option pystr) : bool :=
  match response with
  | Some s => bool_decide (s = U "PONG")
  | None => false
  end.

(** A test that passes on an [OK:] answer. *)
Definition expect_ok (response : option pystr) (passed failed : pystr) : P unit :=
  if is_ok response then print (CHECK ++ passed)
  else print (CROSS ++ failed ++ show response).

(** [main()] *)
Definition main : P unit :=
  print (repeat 61 50) ;;
  print (U "MSAgent-AI Named Pipe Test Script") ;;
  print (repeat 61 50) ;;
  print [] ;;
  print (U "Test 1: PING command") ;;
  response <- send_msagent_command (U "PING") ;;
  (if is_pong response then print (CHECK ++ U " PING test passed")
   else print (CROSS ++ U " PING test failed: " ++ show response)) ;;
  print [] ;;
  print (U "Test 2: VERSION command") ;;
  response <- send_msagent_command (U "VERSION") ;;
  print (CHECK ++ U " VERSION: " ++ show response) ;;
  print [] ;;
  print (U "Test 3: SPEAK command") ;;
  response <- send_msagent_command
                (U "SPEAK:Testing MSAgent integration from Python!") ;;
  expect_ok response (U " SPEAK test passed") (U " SPEAK test failed: ") ;;
  print [] ;;
  print (U "Test 4: ANIMATION command") ;;
  response <- send_msagent_command (U "ANIMATION:Wave") ;;
  expect_ok response (U " ANIMATION test passed") (U " ANIMATION test failed: ") ;;
  print [] ;;
  print (U "Test 5: Simulated GTA V vehicle event") ;;
  response <- send_msagent_command
                (U "CHAT:I just got into a Zentorno (Super car). It's worth about $500000. React to this!") ;;
  (if is_ok response then
     print (CHECK ++ U " GTA V simulation test passed") ;;
     print (U "  (Check MSAgent-AI for the AI response)")
   else print (CROSS ++ U " GTA V simulation test failed: " ++ show response)) ;;
  print [] ;;
  print (U "Test 6: HIDE/SHOW commands") ;;
  response <- send_msagent_command (U "HIDE") ;;
  (if is_ok response then
     print (CHECK ++ U " HIDE command passed") ;;
     response <- send_msagent_command (U "SHOW") ;;
     expect_ok response (U " SHOW command passed") (U " SHOW test failed: ")
   else print (CROSS ++ U " HIDE test failed: " ++ show response)) ;;
  print [] ;;
  print (repeat 61 50) ;;
  print (U "Test completed!") ;;
  print [] ;;
  print (U "If all tests passed, the GTA V integration should work correctly.") ;;
  print (U "Make sure to:") ;;
  print (U "  1. Have MSAgent-AI running") ;;
  print (U "  2. Have Ollama configured for CHAT commands") ;;
  print (U "  3. Install ScriptHook V for GTA V integration").

End WithInterp.
End TestPipe.
Import TestPipe.

Module TestBridge.

Inductive http_method : Type := GET | POST.

(** [response.json()]: the decoded body, or the exception it raises. *)
Inductive json_result : Type :=
  | JsonValue (v : pyval)
  | JsonFails (e : exn).

Record http_response : Type := {
  resp_status : Z;
  resp_json : json_result
}.

(** [requests.get] / [requests.post] with [timeout=5]: a response, or an
    exception (connection refused, timeout, ...). *)
Inductive http_result : Type :=
  | Responded (r : http_response)
  | RequestFails (e : exn).

(** The server as the test client sees it. *)
Definition http_client : Type :=
  http_method -> pystr -> option pyval -> http_result.

Definition test_case : Type := pystr * http_method * pystr * option pyval.

(** The binary64 numbers nearest to 0.01 and 0.05. *)
Definition float_0_01 : spec_float := S754_finite false 5764607523034235 (-59).
Definition float_0_05 : spec_float := S754_finite false 7205759403792794 (-57).

Definition base_url : pystr := U "http://localhost:5000".

(** The [tests] list of [test_endpoints]. *)
Definition tests : list test_case :=
  [ (U "Health Check", GET, U "/health", None);
    (U "Vehicle", POST, U "/vehicle",
     Some (PyDict (json_object
       [member "vehicle_name" (PyStr (U "ETK 800-Series"));
        member "vehicle_model" (PyStr (U "2.0T"))])));
    (U "Crash", POST, U "/crash",
     Some (PyDict (json_object
       [member "vehicle_name" (PyStr (U "D-Series"));
        member "speed_before" (PyInt 80);
        member "damage_level" (PyFloat float_0_5)])));
    (U "Dent", POST, U "/dent",
     Some (PyDict (json_object
       [member "vehicle_name" (PyStr (U "Pessima"));
        member "damage_amount" (PyFloat float_0_2);
        member "total_damage" (PyFloat float_0_5)])));
    (U "Scratch", POST, U "/scratch",
     Some (PyDict (json_object
       [member "vehicle_name" (PyStr (U "Covet"));
        member "damage_amount" (PyFloat float_0_01);
        member "total_damage" (PyFloat float_0_05)])));
    (U "Surroundings", POST, U "/surroundings",
     Some (PyDict (json_object
       [member "vehicle_name" (PyStr (U "ETK K-Series"));
        member "location" (PyStr (U "Italy"));
        member "speed" (PyInt 75)]))) ].

(** An entry of [results]: the name, the verdict, and the body or the
    error text. *)
Definition test_result : Type := pystr * bool * pyval.

Definition succeeded (r : test_result) : bool := r.1.2.

Section WithInterp.
Context (I : interp).

(** The request of one test. *)
Definition request (http : http_client) (method : http_method) (url : pystr)
    (data : option pyval) : http_result :=
  match method with
  | GET => http GET url None
  | POST => http POST url data
  end.

(** The [except Exception as e] branch of the loop body. *)
Definition test_failed (test_name : pystr) (e : exn) : test_result * list pystr :=
  ((test_name, false, PyStr (str_exn I e)),
   [test_name ++ U ": " ++ CROSS ++ U " FAIL - " ++ str_exn I e]).

(** One turn of the loop of [test_endpoints]: the entry appended to
    [results] and the lines printed. *)
Definition run_test (http : http_client) (t : test_case)
  : test_result * list pystr :=
  let '(test_name, method, endpoint, data) := t in
  let url := base_url ++ endpoint in
  match request http method url data with
  | Responded response =>
      let success := resp_status response =? 200 in
      match resp_json response with
      | JsonValue body =>
          let status := if success then CHECK ++ U " PASS" else CROSS ++ U " FAIL" in
          ((test_name, success, body),
           [test_name ++ U ": " ++ status]
             ++ (if success then []
                 else [U "  Status: " ++ str_int (resp_status response)])
             ++ [U "  Response: " ++ py_str I body])
      | JsonFails e => test_failed test_name e
      end
  | RequestFails e => test_failed test_name e
  end.

Definition run_tests (http : http_client) (ts : list test_case)
  : list test_result * list pystr :=
  (List.map (fun t => (run_test http t).1) ts,
   List.concat (List.map (fun t => (run_test http t).2) ts)).

(** [test_endpoints()] over a list of tests: what is printed and the value
    returned. *)
Definition test_endpoints_on (http : http_client) (ts : list test_case)
  : list pystr * bool :=
  let '(results, printed) := run_tests http ts in
  let passed := length (List.filter succeeded results) in
  let total := length results in
  ([U "Testing Bridge Server Endpoints"; repeat 61 60]
     ++ printed
     ++ [NL ++ repeat 61 60;
         U "Results: " ++ str_int (Z.of_nat passed) ++ U "/"
           ++ str_int (Z.of_nat total) ++ U " tests passed"],
   forallb succeeded results).

Definition test_endpoints (http : http_client) : list pystr * bool :=
  test_endpoints_on http tests.

(** [sys.exit(0 if success else 1)] *)
Definition exit_status (http : http_client) : Z :=
  if (test_endpoints http).2 then 0 else 1.

(** The routes of [bridge.py], as the decorators declare them. *)
Definition bridge_route (method : http_method) (path : pystr)
  : option (pyval -> M response) :=
  match method with
  | GET =>
      if bool_decide (path = U "/health") then Some (fun _ => health I) else None
  | POST =>
      if bool_decide (path = U "/vehicle") then Some (comment_on_vehicle I)
      else if bool_decide (path = U "/crash") then Some (comment_on_crash I)
      else if bool_decide (path = U "/dent") then Some (comment_on_dent I)
      else if bool_decide (path = U "/scratch") then Some (comment_on_scratch I)
      else if bool_decide (path = U "/surroundings")
           then Some (comment_on_surroundings I)
      else None
  end.

End WithInterp.
End TestBridge.
Import TestBridge.

(* ===================================================================== *)
(** * Further vocabulary *)
(* ===================================================================== *)

Module MoreVocabulary.

Definition is_dict (v : pyval) : bool :=
  match v with
  | PyDict _ => true
  | _ => false
  end.

(** The exception [data.get] raises on a value that is not a [dict]. *)
Definition no_get (data : pyval) : exn :=
  PyExc AttributeError
    (U "'" ++ type_name data ++ U "' object has no attribute 'get'").

(** The zeros that follow an integer rendered with [prec] decimals. *)
Definition zeros_after_point (prec : nat) : pystr :=
  match prec with
  | O => []
  | S _ => U "." ++ repeat 48 prec
  end.

(** The lines of a report that carry a verdict. *)
Definition verdicts (out : list pystr) : list pystr :=
  List.filter (fun line => startswith CHECK line || startswith CROSS line) out.

(** A test passes when its request is answered with status 200 and a body
    that is JSON. *)
Definition passes (http : http_client) (t : test_case) : Prop :=
  exists r v,
    request http t.1.1.2 (base_url ++ t.1.2) t.2 = Responded r
    /\ resp_status r = 200 /\ resp_json r = JsonValue v.

(** A test is answered when its route exists and its handler, given the
    payload of the test, returns a response with status 200. *)
Definition answered (I : interp) (env : pipe_env) (t : test_case) : Prop :=
  forall w,
    exists handler w' resp,
      bridge_route I t.1.1.2 t.1.2 = Some handler
      /\ handler (default PyNone t.2) env w = (w', Ret resp)
      /\ status_code resp = 200.

End MoreVocabulary.
Import MoreVocabulary.

(* ===================================================================== *)
(** * Facts about strings *)
(* ===================================================================== *)

Section StringFacts.

Lemma startswith_spec (p s : pystr) :
  startswith p s = true <-> exists post, s = p ++ post.
Proof.
  revert s; induction p as [|a p IH]; intros s; simpl.
  - split; [intros _; exists s; reflexivity | reflexivity].
  - destruct s as [|b s].
    + split; [discriminate | intros [post H]; discriminate].
    + rewrite andb_true_iff, Z.eqb_eq, IH. split.
      * intros [-> [post ->]]. exists post. reflexivity.
      * intros [post H]. injection H as -> ->. eauto.
Qed.

(** [needle in hay] holds exactly when [needle] occurs somewhere in [hay]. *)
Lemma contains_spec (needle hay : pystr) :
  contains needle hay = true <-> exists pre post, hay = pre ++ needle ++ post.
Proof.
  induction hay as [|c hay IH].
  - simpl. rewrite orb_false_r, startswith_spec. split.
    + intros [post ->]. exists [], post. reflexivity.
    + intros [pre [post H]]. destruct pre; [eauto | discriminate].
  - cbn [contains]. rewrite orb_true_iff, startswith_spec, IH. split.
    + intros [[post ->] | [pre [post ->]]].
      * exists [], post. reflexivity.
      * exists (c :: pre), post. reflexivity.
    + intros [pre [post H]]. destruct pre as [|c' pre].
      * left. exists post. exact H.
      * right. injection H as _ ->. eauto.
Qed.


Lemma lstrip_spec (s : pystr) :
  exists pre, s = pre ++ lstrip s /\ all_space pre /\ clean_left (lstrip s).
Proof.
  induction s as [|c s (pre & Hs & Hpre & Hclean)]; simpl.
  - exists []. repeat split. constructor.
  - destruct (isspace c) eqn:Hc.
    + exists (c :: pre). repeat split; [simpl; f_equal; exact Hs | | assumption].
      constructor; assumption.
    + exists []. repeat split; [constructor | exact Hc].
Qed.

Lemma all_space_rev (s : pystr) : all_space s -> all_space (rev s).
Proof. apply List.Forall_rev. Qed.

Lemma rstrip_spec (s : pystr) :
  exists post, s = rstrip s ++ post /\ all_space post /\ clean_right (rstrip s).
Proof.
  unfold rstrip, clean_right.
  destruct (lstrip_spec (rev s)) as (pre & Hs & Hpre & Hclean).
  exists (rev pre). repeat split.
  - rewrite <- rev_app_distr, <- Hs, rev_involutive. reflexivity.
  - apply all_space_rev, Hpre.
  - rewrite rev_involutive. exact Hclean.
Qed.

Lemma clean_left_prefix (s post : pystr) :
  clean_left (s ++ post) -> clean_left s.
Proof. destruct s; simpl; [intros _; exact Logic.I | auto]. Qed.

(** [strip] removes a run of white space at each end and nothing else:
    what remains neither starts nor ends with white space. *)
Lemma strip_spec (s : pystr) :
  exists pre post,
    s = pre ++ strip s ++ post /\ all_space pre /\ all_space post
    /\ clean_left (strip s) /\ clean_right (strip s).
Proof.
  unfold strip.
  destruct (lstrip_spec s) as (pre & Hs & Hpre & Hl).
  destruct (rstrip_spec (lstrip s)) as (post & Ht & Hpost & Hr).
  exists pre, post. repeat split; try assumption.
  - rewrite <- Ht. exact Hs.
  - apply clean_left_prefix with post. rewrite <- Ht. exact Hl.
Qed.

Lemma lstrip_clean (s : pystr) : clean_left s -> lstrip s = s.
Proof. destruct s as [|c s]; simpl; [reflexivity | intros ->; reflexivity]. Qed.

(** A string with no white space at either end is left as it is. *)
Lemma strip_clean (s : pystr) : clean_left s -> clean_right s -> strip s = s.
Proof.
  intros Hl Hr. unfold strip, rstrip. rewrite (lstrip_clean s Hl).
  rewrite (lstrip_clean (rev s) Hr). apply rev_involutive.
Qed.

Lemma utf8_encode_app (s t : pystr) (bs bt : pybytes) :
  utf8_encode s = Some bs -> utf8_encode t = Some bt ->
  utf8_encode (s ++ t) = Some (bs ++ bt).
Proof.
  revert bs; induction s as [|c s IH]; intros bs; simpl.
  - intros [= <-] ->. reflexivity.
  - destruct (utf8_encode_cp c) as [bc|]; [| discriminate].
    destruct (utf8_encode s) as [rest|]; [| discriminate].
    intros [= <-] Ht. rewrite (IH rest eq_refl Ht), app_assoc. reflexivity.
Qed.

Lemma utf8_encode_app_inv (s t : pystr) (b : pybytes) :
  utf8_encode (s ++ t) = Some b ->
  exists bs bt, utf8_encode s = Some bs /\ utf8_encode t = Some bt /\ b = bs ++ bt.
Proof.
  revert b; induction s as [|c s IH]; intros b; simpl.
  - intros H. exists [], b. auto.
  - destruct (utf8_encode_cp c) as [bc|]; [| discriminate].
    destruct (utf8_encode (s ++ t)) as [rest|] eqn:E; [| discriminate].
    intros [= <-]. destruct (IH rest eq_refl) as (bs & bt & -> & -> & ->).
    exists (bc ++ bs), bt. rewrite app_assoc. auto.
Qed.

Lemma decimal_value_app (s : pystr) (c : Z) :
  decimal_value (s ++ [c]) = 10 * decimal_value s + (c - 48).
Proof. unfold decimal_value. rewrite fold_left_app. reflexivity. Qed.

Lemma digits_fuel_step (fuel : nat) (n : Z) (acc : pystr) :
  digits_fuel (S fuel) n acc
  = if n <? 10 then (48 + n mod 10) :: acc
    else digits_fuel fuel (n / 10) ((48 + n mod 10) :: acc).
Proof. reflexivity. Qed.

(** [digits_fuel] prepends the decimal digits of [n] to the accumulator. *)
Lemma digits_fuel_spec (fuel : nat) (n : Z) (acc : pystr) :
  0 <= n < 2 ^ Z.of_nat (S fuel) ->
  exists ds,
    digits_fuel (S fuel) n acc = ds ++ acc
    /\ decimal_value ds = n /\ Forall is_digit ds /\ ds <> [].
Proof.
  revert n acc. induction fuel as [|fuel IH]; intros n acc Hn;
    rewrite digits_fuel_step;
    assert (Hmod : 0 <= n mod 10 < 10) by (apply Z.mod_pos_bound; lia);
    destruct (n <? 10) eqn:Hlt.
  1, 3: apply Z.ltb_lt in Hlt; exists [48 + n mod 10]; repeat split;
    [ unfold decimal_value; simpl; rewrite Z.mod_small by lia; lia
    | constructor; [unfold is_digit; lia | constructor]
    | discriminate ].
  - apply Z.ltb_ge in Hlt. change (2 ^ Z.of_nat 1) with 2 in Hn. lia.
  - apply Z.ltb_ge in Hlt.
    assert (Hdiv : 0 <= n / 10 < 2 ^ Z.of_nat (S fuel)).
    { split; [apply Z.div_pos; lia |].
      rewrite (Nat2Z.inj_succ (S fuel)), Z.pow_succ_r in Hn by lia.
      apply Z.div_lt_upper_bound; lia. }
    destruct (IH (n / 10) ((48 + n mod 10) :: acc) Hdiv)
      as (ds & Heq & Hval & Hdig & Hne).
    exists (ds ++ [48 + n mod 10]). repeat split.
    + rewrite Heq, <- List.app_assoc. reflexivity.
    + rewrite decimal_value_app, Hval.
      pose proof (Z.div_mod n 10). lia.
    + apply Forall_app. split; [exact Hdig |].
      constructor; [unfold is_digit; lia | constructor].
    + destruct ds; discriminate.
Qed.

(** [digits n] is a non-empty string of decimal digits that reads back
    as [n]. *)
Lemma digits_spec (n : Z) :
  0 <= n ->
  decimal_value (digits n) = n /\ Forall is_digit (digits n) /\ digits n <> [].
Proof.
  intros Hn. unfold digits.
  destruct (digits_fuel_spec (Z.to_nat (Z.log2 n)) n []) as (ds & -> & H).
  - split; [exact Hn |].
    rewrite Nat2Z.inj_succ, Z2Nat.id by apply Z.log2_nonneg.
    destruct (Z.eq_dec n 0) as [-> | Hnz]; [simpl; lia |].
    apply Z.log2_spec. lia.
  - rewrite app_nil_r. exact H.
Qed.

(** With no decimal the fixed-point rendering is the digits alone; with one
    decimal it is the integer part, a point and one digit. *)
Lemma fixed_0 (k : Z) : fixed 0 k = digits k.
Proof. unfold fixed. simpl. rewrite Z.div_1_r, app_nil_r. reflexivity. Qed.

Lemma fixed_1 (k : Z) :
  0 <= k -> fixed 1 k = digits (k / 10) ++ U "." ++ [48 + k mod 10].
Proof.
  intros Hk. unfold fixed. change (10 ^ Z.of_nat 1) with 10.
  assert (Hmod : 0 <= k mod 10 < 10) by (apply Z.mod_pos_bound; lia).
  assert (Hd : digits (k mod 10) = [48 + k mod 10]).
  { unfold digits. cbn [digits_fuel].
    rewrite (Z.mod_small (k mod 10) 10) by lia.
    destruct (k mod 10 <? 10) eqn:E; [reflexivity | apply Z.ltb_ge in E; lia]. }
  rewrite Hd. reflexivity.
Qed.

(** The codec and the formatter on a few values whose Python results are
    well known. *)
Example utf8_decode_multibyte :
  utf8_decode [x50; xc3; xa9; xe2; x82; xac; xf0; x9f; x98; x80]
  = Some [80; 233; 8364; 128512]
  /\ utf8_encode [80; 233; 8364; 128512]
     = Some [x50; xc3; xa9; xe2; x82; xac; xf0; x9f; x98; x80].
Proof. split; vm_compute; reflexivity. Qed.

Example utf8_decode_rejects :
  utf8_decode [xc0; x80] = None          (* overlong *)
  /\ utf8_decode [xed; xa0; x80] = None  (* surrogate *)
  /\ utf8_decode [xe2; x82] = None       (* truncated *)
  /\ utf8_encode [55296] = None.         (* lone surrogate *)
Proof. repeat split; vm_compute; reflexivity. Qed.

Example format_f_rounds_half_to_even :
  format_f 0 float_0_5 = U "0"
  /\ format_f 0 (S754_finite false 5 (-1)) = U "2"
  /\ format_f 0 (S754_finite false 7 (-1)) = U "4"
  /\ format_f 1 float_0_2 = U "0.2"
  /\ format_f 1 (S754_zero true) = U "-0.0"
  /\ format_f 0 (S754_infinity true) = U "-inf".
Proof. repeat split; vm_compute; reflexivity. Qed.

Example int_to_float_range :
  int_to_float 80 = Some (S754_finite false 5629499534213120 (-46))
  /\ int_to_float (2 ^ 1024 - 1) = None
  /\ int_to_float 0 = Some (S754_zero false).
Proof. repeat split; vm_compute; reflexivity. Qed.

End StringFacts.

(* ===================================================================== *)
(** * The round trip of [send_to_msagent] *)
(* ===================================================================== *)

Ltac unfold_effects :=
  unfold leaving_frame, try_except, mbind, M_bind, mret, M_ret,
    CreateFile, WriteFile, ReadFile, CloseHandle, logger, encode, decode,
    get, fmt, lift in *.

Ltac run_round_trip :=
  unfold send_to_msagent, round_trip in *; unfold_effects.

Section SendFacts.
Context (I : interp).

Lemma count_create_app (t1 t2 : list os_call) :
  count_create (t1 ++ t2) = (count_create t1 + count_create t2)%nat.
Proof.
  induction t1 as [|c t1 IH]; simpl; [reflexivity |].
  destruct c; simpl; rewrite IH; reflexivity.
Qed.

Lemma written_to_app (h : handle) (t1 t2 : list os_call) :
  written_to h (t1 ++ t2) = written_to h t1 ++ written_to h t2.
Proof.
  induction t1 as [|c t1 IH]; simpl; [reflexivity |].
  destruct c; simpl; try exact IH.
  destruct (h =? h0); [rewrite IH, app_assoc |]; auto.
Qed.

(** The handlers of [send_to_msagent] only log, and leaving the frame
    makes no call: whatever calls the [try] block made are all that were
    made. *)
Lemma send_trace (command : pystr) (env : pipe_env) (w : world) :
  trace (send_to_msagent I command env w).1
  = trace (round_trip I command env w).1.
Proof.
  unfold send_to_msagent, leaving_frame, try_except.
  destruct (round_trip I command env w) as [w1 [r|e|]]; [auto | | auto].
  destruct e; unfold_effects; simpl; auto.
Qed.


Lemma opened_before_sub (before hs : list handle) :
  (forall h, In h hs -> In h before) -> opened_before before hs = hs.
Proof.
  intros H. unfold opened_before. induction hs as [|x hs IH]; [reflexivity |].
  cbn [List.filter].
  assert (Hx : existsb (Z.eqb x) before = true).
  { apply existsb_exists. exists x. split; [apply H; left; reflexivity |].
    apply Z.eqb_refl. }
  rewrite Hx, IH; [reflexivity |]. intros h Hh. apply H. right. exact Hh.
Qed.

Lemma remove_handle_incl (h x : handle) (hs : list handle) :
  In x (remove_handle h hs) -> In x hs.
Proof. unfold remove_handle. rewrite filter_In. tauto. Qed.


(** The [try] block starts with one connection attempt and makes no
    other. *)
Lemma round_trip_trace (command : pystr) (env : pipe_env) (w : world) :
  exists rest,
    trace (round_trip I command env w).1 = trace w ++ connect_call :: rest
    /\ count_create rest = O.
Proof.
  run_round_trip.
  repeat (case_match; simpl in *; simplify_eq);
    eexists; (split; [simpl; rewrite <- ?List.app_assoc; reflexivity | reflexivity]).
Qed.

(** An exception of the [try] block becomes the returned string. *)
Lemma send_catches (command : pystr) (env : pipe_env) (w w1 : world) (e : exn) :
  round_trip I command env w = (w1, Raise e) ->
  exists w2,
    send_to_msagent I command env w = (w2, Ret (error_reply I e))
    /\ trace w2 = trace w1.
Proof.
  intros H. unfold send_to_msagent, leaving_frame, try_except. rewrite H.
  destruct e; unfold_effects; simpl; eexists; split; reflexivity || auto.
Qed.

Lemma send_returns_or_hangs (command : pystr) (env : pipe_env) (w : world) :
  (exists s, (send_to_msagent I command env w).2 = Ret s)
  \/ (send_to_msagent I command env w).2 = Hang.
Proof.
  unfold send_to_msagent, leaving_frame, try_except.
  destruct (round_trip I command env w) as [w1 [r|e|]]; simpl; eauto.
  destruct e; unfold_effects; simpl; eauto.
Qed.

Lemma error_reply_prefix (e : exn) :
  startswith (U "ERROR:") (error_reply I e) = true.
Proof.
  apply startswith_spec. destruct e as [c f s | cls msg]; simpl.
  - eexists. reflexivity.
  - exists msg. reflexivity.
Qed.

(** With a responsive environment the [try] block comes back. *)
Lemma round_trip_responsive (command : pystr) (env : pipe_env) (w : world) :
  responsive env -> (round_trip I command env w).2 <> Hang.
Proof.
  intros (Hc & Hw & Hr & Hcl). run_round_trip.
  repeat (case_match; simpl in *; simplify_eq); try discriminate;
    try congruence; exfalso; eauto.
Qed.

Lemma send_responsive (command : pystr) (env : pipe_env) (w : world) :
  responsive env ->
  exists w' s, send_to_msagent I command env w = (w', Ret s).
Proof.
  intros Hresp.
  pose proof (round_trip_responsive command env w Hresp) as Hrt.
  unfold send_to_msagent, leaving_frame, try_except.
  destruct (round_trip I command env w) as [w1 [r|e|]]; simpl in *.
  - eauto.
  - destruct e; unfold_effects; simpl; eauto.
  - congruence.
Qed.

Lemma send_to_msagent_connect_failed (command : pystr) (env : pipe_env)
    (w : world) (c : Z) (f s : pystr) :
  env_create env = Raise (pywintypes_error c f s) ->
  exists w', send_to_msagent I command env w = (w', Ret could_not_connect).
Proof.
  intros Hc.
  assert (Hrt : round_trip I command env w
                = (record_call connect_call w, Raise (pywintypes_error c f s))).
  { run_round_trip. rewrite Hc. reflexivity. }
  destruct (send_catches command env w _ _ Hrt) as (w2 & H & _).
  exists w2. exact H.
Qed.

End SendFacts.

Lemma peer_replying_responsive (reply : pybytes) : responsive (peer_replying reply).
Proof. repeat split; simpl; intros; discriminate. Qed.

Lemma peer_absent_responsive : responsive peer_absent.
Proof. repeat split; simpl; intros; discriminate. Qed.

(* ===================================================================== *)
(** * The event routes and their templates *)
(* ===================================================================== *)

Section HandlerFacts.
Context (I : interp).

Lemma py_format_fixed (v : pyval) (prec : nat) :
  formattable v = true ->
  py_format I v (FmtFixed prec) = Ret (format_f prec (to_float v)).
Proof.
  destruct v as [| b | n | x | s | l | d]; simpl; try discriminate;
    try reflexivity; unfold format_int_f; intros H.
  - destruct b; reflexivity.
  - destruct (int_to_float n); [reflexivity | discriminate].
Qed.

Lemma py_format_fixed_raises (v : pyval) (prec : nat) :
  formattable v = false ->
  exists e, py_format I v (FmtFixed prec) = Raise e.
Proof.
  destruct v as [| b | n | x | s | l | d]; simpl; try discriminate;
    unfold format_int_f; intros H; eauto.
  destruct (int_to_float n); [discriminate | eauto].
Qed.

Lemma py_get_dict (d : gmap pystr pyval) (key : string) (dflt : pyval) :
  py_get (PyDict d) (U key) dflt = Ret (field d key dflt).
Proof. unfold py_get, field. destruct (d !! U key); reflexivity. Qed.

Lemma py_format_none (v : pyval) : py_format I v FmtNone = Ret (py_str I v).
Proof. reflexivity. Qed.

Ltac run_handler :=
  unfold dispatch, name_of, number_of; unfold_effects;
  repeat (rewrite ?py_get_dict, ?py_format_none; cbv beta iota).

Lemma comment_on_vehicle_dispatch (d : gmap pystr pyval) (env : pipe_env) (w : world) :
  comment_on_vehicle I (PyDict d) env w = dispatch I (vehicle_command I d) env w.
Proof. unfold comment_on_vehicle, vehicle_command. run_handler. reflexivity. Qed.

Lemma comment_on_dent_dispatch (d : gmap pystr pyval) (env : pipe_env) (w : world) :
  comment_on_dent I (PyDict d) env w = dispatch I (dent_command I d) env w.
Proof. unfold comment_on_dent, dent_command. run_handler. reflexivity. Qed.

Lemma comment_on_scratch_dispatch (d : gmap pystr pyval) (env : pipe_env) (w : world) :
  comment_on_scratch I (PyDict d) env w = dispatch I (scratch_command I d) env w.
Proof. unfold comment_on_scratch, scratch_command. run_handler. reflexivity. Qed.

Lemma comment_on_crash_dispatch (d : gmap pystr pyval) (env : pipe_env) (w : world) :
  formattable (field d "speed_before" (PyInt 0)) = true ->
  formattable (field d "damage_level" (PyInt 0)) = true ->
  comment_on_crash I (PyDict d) env w = dispatch I (crash_command I d) env w.
Proof.
  intros Hs Hd. unfold comment_on_crash, crash_command. run_handler.
  rewrite (py_format_fixed _ 0%nat Hs), (py_format_fixed _ 1%nat Hd).
  reflexivity.
Qed.

Lemma comment_on_surroundings_dispatch (d : gmap pystr pyval) (env : pipe_env) (w : world) :
  formattable (field d "speed" (PyInt 0)) = true ->
  comment_on_surroundings I (PyDict d) env w
  = dispatch I (surroundings_command I d) env w.
Proof.
  intros Hs. unfold comment_on_surroundings, surroundings_command. run_handler.
  rewrite (py_format_fixed _ 0%nat Hs). reflexivity.
Qed.

(** Once the command is built the route answers [{"status": "ok"}],
    whatever string [send_to_msagent] came back with. *)
Lemma dispatch_ok (command : pystr) (env : pipe_env) (w : world) :
  responsive env ->
  exists w' r,
    send_to_msagent I command env w = (w', Ret r)
    /\ dispatch I command env w = (w', Ret status_ok).
Proof.
  intros Hresp.
  destruct (send_responsive I command env w Hresp) as (w' & r & Hsend).
  exists w', r. split; [exact Hsend |].
  unfold dispatch, mbind, M_bind. rewrite Hsend. reflexivity.
Qed.

End HandlerFacts.

(* ===================================================================== *)
(** * The successful round trip *)
(* ===================================================================== *)

Section RoundTrip.
Context (I : interp).

Lemma written_after_write (h : handle) (t : list os_call) (name : pystr)
    (a s d f : Z) (data : pybytes) :
  written_to h ((t ++ [CallCreateFile name a s d f]) ++ [CallWriteFile h data])
  = written_to h t ++ data.
Proof.
  rewrite !written_to_app. simpl. rewrite Z.eqb_refl, !app_nil_r. reflexivity.
Qed.

Lemma remove_handle_head (h : handle) (hs : list handle) :
  remove_handle h (h :: hs) = remove_handle h hs.
Proof. unfold remove_handle. simpl. rewrite Z.eqb_refl. reflexivity. Qed.

Lemma remove_handle_gone (h : handle) (hs : list handle) :
  ~ In h (remove_handle h hs).
Proof.
  unfold remove_handle. rewrite filter_In. intros [_ H].
  rewrite Z.eqb_refl in H. discriminate.
Qed.

(** The whole effect of a call in which every step succeeds. *)
Lemma send_success (command : pystr) (env : pipe_env) (w : world)
    (h : handle) (bytes : pybytes) (hr : Z) (avail : pybytes) (s : pystr) :
  env_create env = Ret h ->
  utf8_encode command = Some bytes ->
  env_write env (bytes ++ [x0a]) = Ret tt ->
  env_read env (written_to h (trace w) ++ bytes ++ [x0a]) = Ret (hr, avail) ->
  utf8_decode (firstn 1024 avail) = Some s ->
  env_close env = Ret tt ->
  send_to_msagent I command env w
  = ({| trace := trace w ++ [connect_call;
                             CallWriteFile h (bytes ++ [x0a]);
                             CallReadFile h 1024;
                             CallCloseHandle h];
        open_handles := remove_handle h (open_handles w);
        log := log w ++ [(INFO, U "Sent: " ++ command
                                  ++ U ", Received: " ++ strip s)] |},
     Ret (strip s)).
Proof.
  intros Hc He Hw Hr Hd Hcl.
  assert (Henc : utf8_encode (command ++ NL) = Some (bytes ++ [x0a])).
  { apply utf8_encode_app; [exact He | reflexivity]. }
  run_round_trip. rewrite Hc. cbn [trace open_handles log record_call set_open].
  rewrite Henc, Hw. cbn [trace open_handles log record_call set_open].
  rewrite written_after_write, Hr, Hd, Hcl.
  cbn [trace open_handles log record_call set_open].
  rewrite remove_handle_head, <- !List.app_assoc, opened_before_sub
    by (intros x; apply remove_handle_incl).
  reflexivity.
Qed.

(** A peer that never answers keeps the caller inside [ReadFile]. *)
Lemma send_hangs_on_silent_read (command : pystr) (env : pipe_env) (w : world)
    (h : handle) (bytes : pybytes) :
  env_create env = Ret h ->
  utf8_encode (command ++ NL) = Some bytes ->
  env_write env bytes = Ret tt ->
  (forall req, env_read env req = Hang) ->
  (send_to_msagent I command env w).2 = Hang.
Proof.
  intros Hc He Hw Hr. run_round_trip. rewrite Hc. simpl.
  rewrite He, Hw, Hr. reflexivity.
Qed.

End RoundTrip.

(* ===================================================================== *)
(** * The crash route *)
(* ===================================================================== *)




(** C1, as stated, fails: a payload can supply all three fields and still
    get no command sent.  With the speed given as a string the ['.0f']
    field raises [ValueError]; with an integer speed too large for a
    [float] it raises [OverflowError].  In both cases the route raises
    before any pipe call. *)
Lemma crash_unformattable_speed_raises :
  comment_on_crash interp0 (PyDict d_series_crash_text_speed)
      (peer_replying (B "OK:ack")) world0
  = (world0,
     Raise (PyExc ValueError
              (U "Unknown format code 'f' for object of type 'str'")))
  /\ comment_on_crash interp0 (PyDict d_series_crash_huge_speed)
       (peer_replying (B "OK:ack")) world0
     = (world0,
        Raise (PyExc OverflowError (U "int too large to convert to float"))).
Proof. split; vm_compute; reflexivity. Qed.

(** C1, amended.  For every JSON-object payload that supplies
    [vehicle_name], [speed_before] and [damage_level], the latter two being
    values the ['f'] format accepts (a float, a boolean, or an integer
    within the range of a float), the crash route behaves as: send the
    command built from the template (name through [str], speed with no
    decimal, damage with one decimal), then answer [{"status": "ok"}].
    In the scenario of the specification the bytes written to the pipe are
    those of the expected line followed by a newline, and the reply is 200
    [{"status": "ok"}]. *)
Theorem crash_sends_template :
  (forall (I : interp) (d : gmap pystr pyval) (vn sp dm : pyval)
          (env : pipe_env) (w : world),
      d !! U "vehicle_name" = Some vn ->
      d !! U "speed_before" = Some sp ->
      d !! U "damage_level" = Some dm ->
      formattable sp = true ->
      formattable dm = true ->
      comment_on_crash I (PyDict d) env w
      = dispatch I
          (U "CHAT:I just crashed my " ++ py_str I vn ++ U " at "
             ++ format_f 0 (to_float sp)
             ++ U " km/h! The damage is pretty bad ("
             ++ format_f 1 (to_float dm) ++ U "). React dramatically!")
          env w)
  /\ (forall I : interp,
        comment_on_crash I (PyDict d_series_crash)
          (peer_replying (B "OK:ack")) world0
        = ({| trace :=
                [connect_call;
                 CallWriteFile 7
                   (B "CHAT:I just crashed my D-Series at 80 km/h! The damage is pretty bad (0.5). React dramatically!"
                      ++ [x0a]);
                 CallReadFile 7 1024;
                 CallCloseHandle 7];
              open_handles := [];
              log :=
                [(INFO,
                  U "Sent: CHAT:I just crashed my D-Series at 80 km/h! The damage is pretty bad (0.5). React dramatically!, Received: OK:ack")] |},
           Ret status_ok))
  /\ status_code status_ok = 200
  /\ json status_ok = {[ U "status" := PyStr (U "ok") ]}.
Proof.
  split; [| split; [| split]].
  - intros I d vn sp dm env w Hvn Hsp Hdm Fsp Fdm.
    rewrite (comment_on_crash_dispatch I d env w).
    + unfold crash_command, name_of, number_of, field.
      rewrite Hvn, Hsp, Hdm. reflexivity.
    + unfold field. rewrite Hsp. exact Fsp.
    + unfold field. rewrite Hdm. exact Fdm.
  - intros I. vm_compute. reflexivity.
  - reflexivity.
  - reflexivity.
Qed.

(** The amended statement at the scenario's payload, against the peer that
    answers [OK:ack]. *)
Lemma crash_sends_template_witness :
  comment_on_crash interp0 (PyDict d_series_crash)
    (peer_replying (B "OK:ack")) world0
  = dispatch interp0
      (U "CHAT:I just crashed my D-Series at 80 km/h! The damage is pretty bad (0.5). React dramatically!")
      (peer_replying (B "OK:ack")) world0.
Proof.
  apply (proj1 crash_sends_template interp0 d_series_crash
           (PyStr (U "D-Series")) (PyInt 80) (PyFloat float_0_5)
           (peer_replying (B "OK:ack")) world0);
    vm_compute; reflexivity.
Defined.

(* ===================================================================== *)
(** * Error handling of [send_to_msagent] *)
(* ===================================================================== *)

(** C2.  [send_to_msagent] never propagates an exception: whatever the
    command and whatever the pipe does, its result is not a raised exception.
    When the connection attempt fails with a [pywintypes.error] the result
    is exactly the "could not connect" string.  Any exception raised inside
    the [try] block (connect, encode, write, read, decode, close) is turned
    into a returned string that starts with [ERROR:], and nothing more is
    done on the pipe after the failure.  Exactly one connection attempt is
    made per call: there is no retry. *)
Theorem send_to_msagent_never_raises
    (I : interp) (command : pystr) (env : pipe_env) (w : world) :
  (forall e, (send_to_msagent I command env w).2 <> Raise e)
  /\ (forall c f s,
        env_create env = Raise (pywintypes_error c f s) ->
        (send_to_msagent I command env w).2
        = Ret (U "ERROR:Could not connect to MSAgent-AI. Is it running?"))
  /\ (forall w1 e,
        round_trip I command env w = (w1, Raise e) ->
        (send_to_msagent I command env w).2 = Ret (error_reply I e)
        /\ startswith (U "ERROR:") (error_reply I e) = true
        /\ trace (send_to_msagent I command env w).1 = trace w1)
  /\ count_create (trace (send_to_msagent I command env w).1)
     = S (count_create (trace w)).
Proof.
  split; [| split; [| split]].
  - intros e H.
    destruct (send_returns_or_hangs I command env w) as [[s Hs] | Hh];
      congruence.
  - intros c f s Hc.
    destruct (send_to_msagent_connect_failed I command env w c f s Hc)
      as (w2 & ->).
    reflexivity.
  - intros w1 e Hrt.
    destruct (send_catches I command env w _ _ Hrt) as (w2 & -> & Ht).
    repeat split; [apply error_reply_prefix | exact Ht].
  - rewrite (send_trace I command env w).
    destruct (round_trip_trace I command env w) as (rest & -> & Hrest).
    rewrite count_create_app. simpl. rewrite Hrest. lia.
Qed.

(** When nobody listens, the caller gets the "could not connect" string and
    the only call made is the failed connection attempt. *)
Example send_to_absent_peer :
  send_to_msagent interp0 (U "PING") peer_absent world0
  = ({| trace := [connect_call];
        open_handles := [];
        log := [(ERROR, U "Named pipe error: <pywintypes.error>")] |},
     Ret (U "ERROR:Could not connect to MSAgent-AI. Is it running?")).
Proof. vm_compute. reflexivity. Qed.

(** A reply that is not UTF-8 comes back as an [ERROR:] string as well. *)
Example send_undecodable_reply :
  (send_to_msagent interp0 (U "PING") (peer_replying [xff]) world0).2
  = Ret (U "ERROR:<UnicodeDecodeError>").
Proof. vm_compute. reflexivity. Qed.

(* ===================================================================== *)
(** * The health route *)
(* ===================================================================== *)

Lemma could_not_connect_no_PONG : contains (U "PONG") could_not_connect = false.
Proof. vm_compute. reflexivity. Qed.

(** C3.  Whenever the pipe calls come back (in particular when the peer is
    absent), [health] answers 200 with [status] "ok", with
    [msagent_response] the very string [send_to_msagent("PING")] returned,
    and with [msagent_connected] true exactly when that string contains
    "PONG".  An unreachable peer gives the same 200 reply, carrying the
    "could not connect" string and the flag false. *)
Theorem health_reports_connectivity (I : interp) (env : pipe_env) (w : world) :
  responsive env ->
  exists w' r b resp,
    send_to_msagent I (U "PING") env w = (w', Ret r)
    /\ health I env w = (w', Ret resp)
    /\ status_code resp = 200
    /\ json resp !! U "status" = Some (PyStr (U "ok"))
    /\ json resp !! U "msagent_connected" = Some (PyBool b)
    /\ json resp !! U "msagent_response" = Some (PyStr r)
    /\ (b = true <-> exists pre post, r = pre ++ U "PONG" ++ post)
    /\ (forall c f s,
          env_create env = Raise (pywintypes_error c f s) ->
          r = could_not_connect /\ b = false).
Proof.
  intros Hresp.
  destruct (send_responsive I (U "PING") env w Hresp) as (w' & r & Hsend).
  exists w', r, (contains (U "PONG") r).
  eexists. split; [exact Hsend |].
  split; [unfold health, mbind, M_bind; rewrite Hsend; reflexivity |].
  split; [reflexivity |].
  split; [vm_compute; reflexivity |].
  split; [vm_compute; reflexivity |].
  split; [vm_compute; reflexivity |].
  split; [apply contains_spec |].
  intros c f s Hc.
  destruct (send_to_msagent_connect_failed I (U "PING") env w c f s Hc) as [w1 H1].
  rewrite H1 in Hsend. injection Hsend as _ <-.
  split; [reflexivity | apply could_not_connect_no_PONG].
Qed.


(** The statement against a peer that answers [PONG]: the flag is true. *)
Lemma health_reports_connectivity_witness :
  exists resp,
    (health interp0 (peer_replying (B "PONG" ++ [x0a])) world0).2 = Ret resp
    /\ status_code resp = 200
    /\ json resp !! U "msagent_connected" = Some (PyBool true)
    /\ json resp !! U "msagent_response" = Some (PyStr (U "PONG")).
Proof.
  destruct (health_reports_connectivity interp0
              (peer_replying (B "PONG" ++ [x0a])) world0
              (peer_replying_responsive _))
    as (w' & r & b & resp & Hsend & Hhealth & Hcode & _ & Hb & Hr & Hiff & _).
  vm_compute in Hsend. injection Hsend as _ <-.
  assert (b = true) as -> by (apply Hiff; exists [], []; reflexivity).
  exists resp. rewrite Hhealth. auto.
Defined.

(* ===================================================================== *)
(** * The acknowledgement of the event routes *)
(* ===================================================================== *)


(** C4, as stated, fails: a payload that decodes well does not always get
    [{"status": "ok"}].  A JSON [null] speed makes the surroundings route
    raise [TypeError], and a payload that is a JSON array makes the dent
    route raise [AttributeError]; neither route reaches the pipe, although
    the peer is there and answers. *)
Lemma event_route_raises_on_decoded_payload :
  comment_on_surroundings interp0 (PyDict surroundings_null_speed)
      (peer_replying (B "OK:ack")) world0
  = (world0,
     Raise (PyExc TypeError
              (U "unsupported format string passed to NoneType.__format__")))
  /\ comment_on_dent interp0 (PyList []) (peer_replying (B "OK:ack")) world0
     = (world0,
        Raise (PyExc AttributeError (U "'list' object has no attribute 'get'"))).
Proof. split; vm_compute; reflexivity. Qed.

(** C4, amended.  For every JSON-object payload and every behaviour of the
    pipe in which no call blocks, the vehicle, dent and scratch routes
    return exactly [{"status": "ok"}]; so do the crash and surroundings
    routes when the numeric fields that are present are values the ['f']
    format accepts.  The string [send_to_msagent] returned, whether a reply
    or an [ERROR:] string, is no part of the answer. *)
Theorem event_routes_acknowledge
    (I : interp) (d : gmap pystr pyval) (env : pipe_env) (w : world) :
  responsive env ->
  (exists w', comment_on_vehicle I (PyDict d) env w = (w', Ret status_ok))
  /\ (formattable (field d "speed_before" (PyInt 0)) = true ->
      formattable (field d "damage_level" (PyInt 0)) = true ->
      exists w', comment_on_crash I (PyDict d) env w = (w', Ret status_ok))
  /\ (exists w', comment_on_dent I (PyDict d) env w = (w', Ret status_ok))
  /\ (exists w', comment_on_scratch I (PyDict d) env w = (w', Ret status_ok))
  /\ (formattable (field d "speed" (PyInt 0)) = true ->
      exists w', comment_on_surroundings I (PyDict d) env w = (w', Ret status_ok))
  /\ json status_ok = {[ U "status" := PyStr (U "ok") ]}.
Proof.
  intros Hresp.
  assert (Hok : forall c, exists w', dispatch I c env w = (w', Ret status_ok)).
  { intros c. destruct (dispatch_ok I c env w Hresp) as (w' & r & _ & H). eauto. }
  repeat split.
  - rewrite comment_on_vehicle_dispatch. apply Hok.
  - intros Hs Hd. rewrite (comment_on_crash_dispatch I d env w Hs Hd). apply Hok.
  - rewrite comment_on_dent_dispatch. apply Hok.
  - rewrite comment_on_scratch_dispatch. apply Hok.
  - intros Hs. rewrite (comment_on_surroundings_dispatch I d env w Hs). apply Hok.
Qed.


(** The amended statement at the crash scenario, with the peer absent: the
    route still answers [{"status": "ok"}]. *)
Lemma event_routes_acknowledge_witness :
  exists w',
    comment_on_crash interp0 (PyDict d_series_crash) peer_absent world0
    = (w', Ret status_ok).
Proof.
  apply (event_routes_acknowledge interp0 d_series_crash peer_absent world0
           peer_absent_responsive);
    vm_compute; reflexivity.
Defined.

(* ===================================================================== *)
(** * Defaults of the command formatter *)
(* ===================================================================== *)


(** C5, as stated, fails: formatting does raise for some typings of the
    fields that are present.  A damage level given as a string makes the
    ['.1f'] field of the crash command raise [ValueError], and no command
    is produced: the pipe is never touched. *)
Lemma crash_formatting_raises_on_text_damage :
  comment_on_crash interp0 (PyDict d_series_crash_text_damage)
      (peer_replying (B "OK:ack")) world0
  = (world0,
     Raise (PyExc ValueError
              (U "Unknown format code 'f' for object of type 'str'")))
  /\ formattable (PyStr (U "severe")) = false.
Proof. split; vm_compute; reflexivity. Qed.

(** C5, amended.  For every JSON-object payload the vehicle, dent and
    scratch routes always build their command and go on to send it; the
    crash and surroundings routes do so whenever the numeric fields that are
    present are values the ['f'] format accepts.  In the command every
    missing field is replaced by its default: "Unknown" for [vehicle_name]
    and [location], the empty string for [vehicle_model], and 0 for the
    numeric fields, as the commands built from the empty payload show. *)
Theorem formatter_substitutes_defaults
    (I : interp) (d : gmap pystr pyval) (env : pipe_env) (w : world) :
  comment_on_vehicle I (PyDict d) env w = dispatch I (vehicle_command I d) env w
  /\ comment_on_dent I (PyDict d) env w = dispatch I (dent_command I d) env w
  /\ comment_on_scratch I (PyDict d) env w = dispatch I (scratch_command I d) env w
  /\ (formattable (field d "speed_before" (PyInt 0)) = true ->
      formattable (field d "damage_level" (PyInt 0)) = true ->
      comment_on_crash I (PyDict d) env w = dispatch I (crash_command I d) env w)
  /\ (formattable (field d "speed" (PyInt 0)) = true ->
      comment_on_surroundings I (PyDict d) env w
      = dispatch I (surroundings_command I d) env w)
  /\ (forall key dflt, d !! U key = None -> field d key dflt = dflt)
  /\ vehicle_command I ∅
     = U "CHAT:I just spawned a Unknown  in BeamNG! Make an excited comment about this vehicle."
  /\ crash_command I ∅
     = U "CHAT:I just crashed my Unknown at 0 km/h! The damage is pretty bad (0.0). React dramatically!"
  /\ dent_command I ∅
     = U "CHAT:My Unknown just got a big dent! Make a comment about the damage."
  /\ scratch_command I ∅
     = U "CHAT:Just scratched the paint on my Unknown. Make a light comment."
  /\ surroundings_command I ∅
     = U "CHAT:I'm driving my Unknown at 0 km/h in Unknown. Comment on the scene!".
Proof.
  split; [apply comment_on_vehicle_dispatch |].
  split; [apply comment_on_dent_dispatch |].
  split; [apply comment_on_scratch_dispatch |].
  split; [apply comment_on_crash_dispatch |].
  split; [apply comment_on_surroundings_dispatch |].
  split; [intros key dflt H; unfold field; rewrite H; reflexivity |].
  repeat split; vm_compute; reflexivity.
Qed.


(** The amended statement at a crash payload that has only the name. *)
Lemma formatter_substitutes_defaults_witness :
  comment_on_crash interp0 (PyDict crash_name_only) peer_absent world0
  = dispatch interp0
      (U "CHAT:I just crashed my D-Series at 0 km/h! The damage is pretty bad (0.0). React dramatically!")
      peer_absent world0.
Proof.
  apply (formatter_substitutes_defaults interp0 crash_name_only peer_absent world0);
    vm_compute; reflexivity.
Defined.

(* ===================================================================== *)
(** * Framing and the bounded read *)
(* ===================================================================== *)

(** C6.  In a call where every step succeeds, the pipe sees one
    connection, then one write whose data is the UTF-8 encoding of the
    command followed by the single byte 0x0A (nothing before it, no length
    prefix), then one read of size 1024, then the close; the response is
    computed from the at most 1024 bytes that read delivered, so a longer
    reply is cut at 1024 bytes. *)
Theorem send_writes_one_line_reads_once
    (I : interp) (command : pystr) (env : pipe_env) (w : world)
    (h : handle) (bytes : pybytes) (hr : Z) (avail : pybytes) (s : pystr) :
  env_create env = Ret h ->
  utf8_encode command = Some bytes ->
  env_write env (bytes ++ [x0a]) = Ret tt ->
  env_read env (written_to h (trace w) ++ bytes ++ [x0a]) = Ret (hr, avail) ->
  utf8_decode (firstn 1024 avail) = Some s ->
  env_close env = Ret tt ->
  exists w',
    send_to_msagent I command env w = (w', Ret (strip s))
    /\ trace w' = trace w ++ [connect_call;
                              CallWriteFile h (bytes ++ [x0a]);
                              CallReadFile h 1024;
                              CallCloseHandle h]
    /\ utf8_encode (command ++ NL) = Some (bytes ++ [x0a])
    /\ (length (firstn 1024 avail) <= 1024)%nat
    /\ ((1024 < length avail)%nat -> length (firstn 1024 avail) = 1024%nat).
Proof.
  intros Hc He Hw Hr Hd Hcl.
  eexists. split; [apply (send_success I command env w h bytes hr avail s); assumption |].
  split; [reflexivity |].
  split; [apply utf8_encode_app; [exact He | reflexivity] |].
  split; [apply firstn_le_length |].
  intros Hlen. apply firstn_length_le. lia.
Qed.

(** A reply of 1030 bytes, all of them the letter A, is cut to 1024. *)
Lemma send_writes_one_line_reads_once_witness :
  exists w',
    send_to_msagent interp0 (U "PING") (peer_replying (repeat x41 1030)) world0
    = (w', Ret (repeat 65 1024))
    /\ trace w' = [connect_call; CallWriteFile 7 (B "PING" ++ [x0a]);
                   CallReadFile 7 1024; CallCloseHandle 7].
Proof.
  destruct (send_writes_one_line_reads_once interp0 (U "PING")
              (peer_replying (repeat x41 1030)) world0 7 (B "PING") 0
              (repeat x41 1030) (repeat 65 1024))
    as (w' & Hsend & Htrace & _);
    try (vm_compute; reflexivity).
  exists w'. split; [exact Hsend | exact Htrace].
Defined.

(* ===================================================================== *)
(** * Waiting for the peer *)
(* ===================================================================== *)

(** C7 does not hold of the code: [PIPE_TIMEOUT] is defined and passed to
    no call.  Against a peer that accepts the connection and the request
    and then stays silent, [send_to_msagent] is still inside [ReadFile]:
    it never returns, with or without an [ERROR:] string.  (An absent peer
    makes [CreateFile] fail at once; see [send_to_absent_peer].) *)
Theorem send_blocks_on_silent_peer :
  send_to_msagent interp0 (U "PING") peer_silent world0
  = ({| trace := [connect_call; CallWriteFile 7 (B "PING" ++ [x0a]);
                  CallReadFile 7 1024];
        open_handles := [7];
        log := [] |},
     Hang)
  /\ PIPE_TIMEOUT = 5000.
Proof. split; vm_compute; reflexivity. Qed.

(* ===================================================================== *)
(** * Closing the handle *)
(* ===================================================================== *)


(** After a reply that is not UTF-8, after a failed read and after a
    failed write, no handle is left open, and no [CloseHandle] call was
    made; on the successful path the call was made. *)
Example send_failure_paths_close :
  (let w := (send_to_msagent interp0 (U "PING") (peer_replying [xff]) world0).1 in
   open_handles w = [] /\ count_close 7 (trace w) = O)
  /\ (let w := (send_to_msagent interp0 (U "PING") peer_broken_read world0).1 in
      open_handles w = [] /\ count_close 7 (trace w) = O)
  /\ (let w := (send_to_msagent interp0 (U "PING") peer_broken_write world0).1 in
      open_handles w = [] /\ count_close 7 (trace w) = O)
  /\ (let w := (send_to_msagent interp0 (U "PING")
                  (peer_replying (B "PONG")) world0).1 in
      open_handles w = [] /\ count_close 7 (trace w) = 1%nat).
Proof. repeat split; vm_compute; reflexivity. Qed.


(* ===================================================================== *)
(** * The response string *)
(* ===================================================================== *)

(** C9, as stated, fails: leading white space of the reply is not
    preserved.  The reply ["  PONG\n"] decodes to a string that starts with
    two spaces; removing the trailing white space alone would leave
    ["  PONG"], but [send_to_msagent] returns ["PONG"]. *)
Lemma send_drops_leading_whitespace :
  utf8_decode (B "  PONG" ++ [x0a]) = Some (U "  PONG" ++ NL)
  /\ rstrip (U "  PONG" ++ NL) = U "  PONG"
  /\ (send_to_msagent interp0 (U "PING")
        (peer_replying (B "  PONG" ++ [x0a])) world0).2
     = Ret (U "PONG")
  /\ U "PONG" <> U "  PONG".
Proof. repeat split; try (vm_compute; reflexivity). discriminate. Qed.

(** C9, amended.  In a call where every step succeeds, the string returned
    is the UTF-8 decoding of the bytes read with the white space at both
    ends removed: the decoding is the returned string between a run of
    white space before and a run of white space after, and the returned
    string neither starts nor ends with white space.  Everything between
    is preserved. *)
Theorem send_returns_stripped_decoding
    (I : interp) (command : pystr) (env : pipe_env) (w : world)
    (h : handle) (bytes : pybytes) (hr : Z) (avail : pybytes) (s : pystr) :
  env_create env = Ret h ->
  utf8_encode command = Some bytes ->
  env_write env (bytes ++ [x0a]) = Ret tt ->
  env_read env (written_to h (trace w) ++ bytes ++ [x0a]) = Ret (hr, avail) ->
  utf8_decode (firstn 1024 avail) = Some s ->
  env_close env = Ret tt ->
  exists r pre post,
    (send_to_msagent I command env w).2 = Ret r
    /\ r = strip s
    /\ s = pre ++ r ++ post
    /\ all_space pre /\ all_space post
    /\ clean_left r /\ clean_right r.
Proof.
  intros Hc He Hw Hr Hd Hcl.
  destruct (strip_spec s) as (pre & post & Hs & Hpre & Hpost & Hl & Hrt).
  exists (strip s), pre, post.
  rewrite (send_success I command env w h bytes hr avail s) by assumption.
  repeat split; assumption.
Qed.

(** The reply ["  OK: a b \n"]: the white space inside stays, the white
    space at both ends goes. *)
Lemma send_returns_stripped_decoding_witness :
  exists r pre post,
    (send_to_msagent interp0 (U "PING")
       (peer_replying (B "  OK: a b " ++ [x0a])) world0).2 = Ret r
    /\ r = U "OK: a b"
    /\ U "  OK: a b " ++ NL = pre ++ r ++ post.
Proof.
  destruct (send_returns_stripped_decoding interp0 (U "PING")
              (peer_replying (B "  OK: a b " ++ [x0a])) world0 7 (B "PING") 0
              (B "  OK: a b " ++ [x0a]) (U "  OK: a b " ++ NL))
    as (r & pre & post & Hsend & Hr & Hs & _);
    try (vm_compute; reflexivity).
  exists r, pre, post. repeat split; assumption.
Defined.

(* ===================================================================== *)
(** * What the dent and scratch routes depend on *)
(* ===================================================================== *)

(** C10.  Two JSON-object payloads that agree on [vehicle_name] (the same
    value, or missing in both) are indistinguishable to the dent route and
    to the scratch route: for every behaviour of the pipe and every starting
    state, the calls made on the pipe (hence the command written), the log
    and the HTTP answer are the same. *)
Theorem dent_and_scratch_read_only_vehicle_name
    (I : interp) (d1 d2 : gmap pystr pyval) (env : pipe_env) (w : world) :
  d1 !! U "vehicle_name" = d2 !! U "vehicle_name" ->
  comment_on_dent I (PyDict d1) env w = comment_on_dent I (PyDict d2) env w
  /\ comment_on_scratch I (PyDict d1) env w = comment_on_scratch I (PyDict d2) env w
  /\ dent_command I d1 = dent_command I d2
  /\ scratch_command I d1 = scratch_command I d2.
Proof.
  intros Hname.
  assert (Hd : dent_command I d1 = dent_command I d2).
  { unfold dent_command, name_of, field. rewrite Hname. reflexivity. }
  assert (Hs : scratch_command I d1 = scratch_command I d2).
  { unfold scratch_command, name_of, field. rewrite Hname. reflexivity. }
  rewrite !comment_on_dent_dispatch, !comment_on_scratch_dispatch, Hd, Hs.
  auto.
Qed.



(** Two dent payloads that differ in everything but the name. *)
Lemma dent_and_scratch_read_only_vehicle_name_witness :
  comment_on_dent interp0 (PyDict pessima_dent) (peer_replying (B "OK:ack")) world0
  = comment_on_dent interp0 (PyDict pessima_dent_text)
      (peer_replying (B "OK:ack")) world0.
Proof.
  apply (dent_and_scratch_read_only_vehicle_name interp0 pessima_dent
           pessima_dent_text (peer_replying (B "OK:ack")) world0).
  vm_compute. reflexivity.
Defined.

(* ===================================================================== *)
(** * The UTF-8 codec: decoding what was encoded *)
(* ===================================================================== *)

Section Utf8RoundTrip.

Lemma lor_high_low (q r n : Z) :
  0 <= n -> 0 <= r < 2 ^ n -> Z.lor (Z.shiftl q n) r = q * 2 ^ n + r.
Proof.
  intros Hn Hr.
  rewrite <- (Z.shiftl_mul_pow2 q n Hn), <- Zbitwise.Z.add_lor_land.
  assert (H0 : Z.land (Z.shiftl q n) r = 0); [| rewrite H0; lia].
  apply Z.bits_inj'. intros i Hi.
  rewrite Z.land_spec, Z.bits_0.
  destruct (Z.lt_ge_cases i n) as [Hlt | Hge].
  - rewrite Z.shiftl_spec_low by assumption. reflexivity.
  - destruct (Z.eq_dec r 0) as [-> | Hr0].
    + rewrite Z.bits_0, andb_false_r. reflexivity.
    + rewrite (Z.bits_above_log2 r i), andb_false_r; [reflexivity | lia |].
      apply Z.log2_lt_pow2; [lia |].
      apply Z.lt_le_trans with (2 ^ n); [lia |].
      apply Z.pow_le_mono_r; lia.
Qed.

Lemma byte_val_of_Z (z : Z) : 0 <= z < 256 -> byte_val (byte_of_Z z) = z.
Proof.
  intros Hz. unfold byte_val, byte_of_Z.
  destruct (Byte.of_N (Z.to_N z)) as [b|] eqn:E.
  - apply Byte.to_of_N in E. rewrite E. lia.
  - apply Byte.of_N_None_iff in E. lia.
Qed.

Lemma utf8_decode_1 (b0 : byte) (r : pybytes) :
  (byte_val b0 <? 128) = true ->
  utf8_decode (b0 :: r) = option_map (cons (byte_val b0)) (utf8_decode r).
Proof. intros H. cbn [utf8_decode]. rewrite H. reflexivity. Qed.

Lemma utf8_decode_2 (b0 b1 : byte) (r : pybytes) :
  in_range 194 223 (byte_val b0) = true ->
  is_cont (byte_val b1) = true ->
  utf8_decode (b0 :: b1 :: r)
  = option_map
      (cons (Z.lor (Z.shiftl (Z.land (byte_val b0) 31) 6) (cont_bits (byte_val b1))))
      (utf8_decode r).
Proof.
  intros H0 H1. cbn [utf8_decode].
  assert ((byte_val b0 <? 128) = false) as ->.
  { unfold in_range in H0. apply andb_true_iff in H0. lia. }
  rewrite H0, H1. reflexivity.
Qed.

Lemma utf8_decode_3 (b0 b1 b2 : byte) (r : pybytes) :
  in_range 224 239 (byte_val b0) = true ->
  in_range (if byte_val b0 =? 224 then 160 else 128)
    (if byte_val b0 =? 237 then 159 else 191) (byte_val b1) = true ->
  is_cont (byte_val b2) = true ->
  utf8_decode (b0 :: b1 :: b2 :: r)
  = option_map
      (cons (Z.lor (Z.shiftl (Z.land (byte_val b0) 15) 12)
               (Z.lor (Z.shiftl (cont_bits (byte_val b1)) 6)
                  (cont_bits (byte_val b2)))))
      (utf8_decode r).
Proof.
  intros H0 H1 H2. cbn [utf8_decode].
  assert ((byte_val b0 <? 128) = false) as ->.
  { unfold in_range in H0. apply andb_true_iff in H0. lia. }
  assert (in_range 194 223 (byte_val b0) = false) as ->.
  { unfold in_range in *. apply andb_true_iff in H0. apply andb_false_iff. lia. }
  rewrite H0, H1, H2. reflexivity.
Qed.

Lemma utf8_decode_4 (b0 b1 b2 b3 : byte) (r : pybytes) :
  in_range 240 244 (byte_val b0) = true ->
  in_range (if byte_val b0 =? 240 then 144 else 128)
    (if byte_val b0 =? 244 then 143 else 191) (byte_val b1) = true ->
  is_cont (byte_val b2) = true ->
  is_cont (byte_val b3) = true ->
  utf8_decode (b0 :: b1 :: b2 :: b3 :: r)
  = option_map
      (cons (Z.lor (Z.shiftl (Z.land (byte_val b0) 7) 18)
               (Z.lor (Z.shiftl (cont_bits (byte_val b1)) 12)
                  (Z.lor (Z.shiftl (cont_bits (byte_val b2)) 6)
                     (cont_bits (byte_val b3))))))
      (utf8_decode r).
Proof.
  intros H0 H1 H2 H3. cbn [utf8_decode].
  assert ((byte_val b0 <? 128) = false) as ->.
  { unfold in_range in H0. apply andb_true_iff in H0. lia. }
  assert (in_range 194 223 (byte_val b0) = false) as ->.
  { unfold in_range in *. apply andb_true_iff in H0. apply andb_false_iff. lia. }
  assert (in_range 224 239 (byte_val b0) = false) as ->.
  { unfold in_range in *. apply andb_true_iff in H0. apply andb_false_iff. lia. }
  rewrite H0, H1, H2, H3. reflexivity.
Qed.

(** Bit operations of the codec as arithmetic. *)
Lemma shiftr_as_div (c n : Z) : 0 <= n -> Z.shiftr c n = c / 2 ^ n.
Proof. apply Z.shiftr_div_pow2. Qed.

Lemma land_63 (c : Z) : Z.land c 63 = c mod 64.
Proof. change 63 with (Z.ones 6). rewrite Z.land_ones by lia. reflexivity. Qed.

Lemma land_31 (c : Z) : Z.land c 31 = c mod 32.
Proof. change 31 with (Z.ones 5). rewrite Z.land_ones by lia. reflexivity. Qed.

Lemma land_15 (c : Z) : Z.land c 15 = c mod 16.
Proof. change 15 with (Z.ones 4). rewrite Z.land_ones by lia. reflexivity. Qed.

Lemma land_7 (c : Z) : Z.land c 7 = c mod 8.
Proof. change 7 with (Z.ones 3). rewrite Z.land_ones by lia. reflexivity. Qed.

Lemma lor_128 (r : Z) : 0 <= r < 64 -> Z.lor 128 r = 128 + r.
Proof.
  intros H. change (Z.lor 128 r) with (Z.lor (Z.shiftl 2 6) r).
  rewrite lor_high_low by (change (2 ^ 6) with 64; lia).
  change (2 ^ 6) with 64. lia.
Qed.

Lemma lor_192 (q : Z) : 0 <= q < 64 -> Z.lor 192 q = 192 + q.
Proof.
  intros H. change (Z.lor 192 q) with (Z.lor (Z.shiftl 3 6) q).
  rewrite lor_high_low by (change (2 ^ 6) with 64; lia).
  change (2 ^ 6) with 64. lia.
Qed.

Lemma lor_224 (q : Z) : 0 <= q < 16 -> Z.lor 224 q = 224 + q.
Proof.
  intros H. change (Z.lor 224 q) with (Z.lor (Z.shiftl 14 4) q).
  rewrite lor_high_low by (change (2 ^ 4) with 16; lia).
  change (2 ^ 4) with 16. lia.
Qed.

Lemma lor_240 (q : Z) : 0 <= q < 8 -> Z.lor 240 q = 240 + q.
Proof.
  intros H. change (Z.lor 240 q) with (Z.lor (Z.shiftl 30 3) q).
  rewrite lor_high_low by (change (2 ^ 3) with 8; lia).
  change (2 ^ 3) with 8. lia.
Qed.

(** A continuation byte carries six bits. *)
Lemma cont_byte (x : Z) :
  let b := byte_of_Z (Z.lor 128 (Z.land x 63)) in
  byte_val b = 128 + x mod 64
  /\ is_cont (byte_val b) = true
  /\ cont_bits (byte_val b) = x mod 64.
Proof.
  assert (H : 0 <= x mod 64 < 64) by (apply Z.mod_pos_bound; lia).
  cbv zeta. rewrite land_63, lor_128, byte_val_of_Z by lia.
  repeat split.
  - unfold is_cont. apply andb_true_iff. lia.
  - unfold cont_bits. rewrite land_63.
    replace (128 + x mod 64) with (x mod 64 + 2 * 64) by lia.
    rewrite Z.mod_add, Z.mod_mod by lia. reflexivity.
Qed.

Lemma lead_byte (base q : Z) :
  0 <= base -> 0 <= q -> base + q < 256 ->
  byte_val (byte_of_Z (base + q)) = base + q.
Proof. intros. apply byte_val_of_Z. lia. Qed.

Ltac as_arith :=
  rewrite ?shiftr_as_div by lia;
  change (2 ^ 6) with 64 in *; change (2 ^ 12) with 4096 in *;
  change (2 ^ 18) with 262144 in *.

(** Decoding the bytes of one encoded code point gives the code point back
    and leaves what follows untouched. *)
Lemma utf8_decode_encoded_cp (c : Z) (bs rest : pybytes) :
  utf8_encode_cp c = Some bs ->
  utf8_decode (bs ++ rest) = option_map (cons c) (utf8_decode rest).
Proof.
  unfold utf8_encode_cp.
  destruct (c <? 0) eqn:H0; [discriminate |]. apply Z.ltb_ge in H0.
  destruct (c <? 128) eqn:H1.
  { apply Z.ltb_lt in H1. intros [= <-]. cbn [app].
    rewrite utf8_decode_1; rewrite byte_val_of_Z by lia;
      [reflexivity | apply Z.ltb_lt; lia]. }
  apply Z.ltb_ge in H1.
  destruct (c <? 2048) eqn:H2.
  { apply Z.ltb_lt in H2. intros [= <-]. cbn [app].
    destruct (cont_byte c) as (V1 & C1 & B1).
    assert (Hq : 2 <= c / 64 < 32) by (Z.div_mod_to_equations; lia).
    assert (V0 : byte_val (byte_of_Z (Z.lor 192 (Z.shiftr c 6))) = 192 + c / 64).
    { as_arith. rewrite lor_192 by lia. apply byte_val_of_Z. lia. }
    rewrite utf8_decode_2.
    - rewrite V0, B1, land_31, lor_high_low
        by (as_arith; Z.div_mod_to_equations; lia).
      f_equal. f_equal. as_arith. Z.div_mod_to_equations. lia.
    - rewrite V0. unfold in_range. apply andb_true_iff. lia.
    - exact C1. }
  apply Z.ltb_ge in H2.
  destruct (c <? 65536) eqn:H3.
  { apply Z.ltb_lt in H3.
    destruct ((55296 <=? c) && (c <=? 57343)) eqn:Hs; [discriminate |].
    apply andb_false_iff in Hs.
    intros [= <-]. cbn [app].
    destruct (cont_byte c) as (V2 & C2 & B2).
    destruct (cont_byte (Z.shiftr c 6)) as (V1 & C1 & B1).
    assert (Hq : 0 <= c / 4096 < 16) by (Z.div_mod_to_equations; lia).
    assert (V0 : byte_val (byte_of_Z (Z.lor 224 (Z.shiftr c 12))) = 224 + c / 4096).
    { as_arith. rewrite lor_224 by lia. apply byte_val_of_Z. lia. }
    rewrite utf8_decode_3.
    - rewrite V0, B1, B2, land_15.
      rewrite (lor_high_low _ (c mod 64)) by (as_arith; Z.div_mod_to_equations; lia).
      rewrite lor_high_low by (as_arith; Z.div_mod_to_equations; lia).
      f_equal. f_equal. as_arith. Z.div_mod_to_equations. lia.
    - rewrite V0. unfold in_range. apply andb_true_iff. lia.
    - rewrite V0, V1. as_arith. unfold in_range. apply andb_true_iff.
      destruct (224 + c / 4096 =? 224) eqn:E1;
        destruct (224 + c / 4096 =? 237) eqn:E2;
        rewrite ?Z.eqb_eq, ?Z.eqb_neq in *;
        split; apply Z.leb_le; Z.div_mod_to_equations; lia.
    - exact C2. }
  apply Z.ltb_ge in H3.
  destruct (c <? 1114112) eqn:H4; [| discriminate].
  apply Z.ltb_lt in H4. intros [= <-]. cbn [app].
  destruct (cont_byte c) as (V3 & C3 & B3).
  destruct (cont_byte (Z.shiftr c 6)) as (V2 & C2 & B2).
  destruct (cont_byte (Z.shiftr c 12)) as (V1 & C1 & B1).
  assert (Hq : 0 <= c / 262144 < 5) by (Z.div_mod_to_equations; lia).
  assert (V0 : byte_val (byte_of_Z (Z.lor 240 (Z.shiftr c 18))) = 240 + c / 262144).
  { as_arith. rewrite lor_240 by lia. apply byte_val_of_Z. lia. }
  rewrite utf8_decode_4.
  - rewrite V0, B1, B2, B3, land_7.
    rewrite (lor_high_low _ (c mod 64)) by (as_arith; Z.div_mod_to_equations; lia).
    rewrite (lor_high_low _ _ 12) by (as_arith; Z.div_mod_to_equations; lia).
    rewrite lor_high_low by (as_arith; Z.div_mod_to_equations; lia).
    f_equal. f_equal. as_arith. Z.div_mod_to_equations. lia.
  - rewrite V0. unfold in_range. apply andb_true_iff. lia.
  - rewrite V0, V1. as_arith. unfold in_range. apply andb_true_iff.
    destruct (240 + c / 262144 =? 240) eqn:E1;
      destruct (240 + c / 262144 =? 244) eqn:E2;
      rewrite ?Z.eqb_eq, ?Z.eqb_neq in *;
      split; apply Z.leb_le; Z.div_mod_to_equations; lia.
  - exact C2.
  - exact C3.
Qed.

(** The round trip: what [encode] produces, [decode] reads back. *)
Lemma utf8_decode_encode (s : pystr) (b : pybytes) :
  utf8_encode s = Some b -> utf8_decode b = Some s.
Proof.
  revert b. induction s as [|c s IH]; intros b; simpl.
  - intros [= <-]. reflexivity.
  - destruct (utf8_encode_cp c) as [bc|] eqn:Ec; [| discriminate].
    destruct (utf8_encode s) as [bs|]; [| discriminate].
    intros [= <-]. rewrite (utf8_decode_encoded_cp c bc bs Ec), (IH bs eq_refl).
    reflexivity.
Qed.

End Utf8RoundTrip.

(* ===================================================================== *)
(** * More on [send_to_msagent] *)
(* ===================================================================== *)

Section MoreSend.
Context (I : interp).

(** X: the frame written decodes back to the command and its newline. *)
Theorem written_frame_decodes_to_command
    (command : pystr) (env : pipe_env) (w : world) :
  exists rest,
    trace (send_to_msagent I command env w).1 = trace w ++ connect_call :: rest
    /\ forall h data,
         In (CallWriteFile h data) rest ->
         utf8_decode data = Some (command ++ NL).
Proof.
  rewrite (send_trace I command env w).
  run_round_trip.
  repeat (case_match; simpl in *; simplify_eq);
    eexists; (split; [simpl; rewrite <- ?List.app_assoc; reflexivity |]);
    intros h data Hin; simpl in Hin;
    repeat (destruct Hin as [Hin | Hin]; try discriminate; simplify_eq);
    try contradiction; apply utf8_decode_encode; assumption.
Qed.

(** X: one log record per returning call. *)
Theorem send_logs_once (command : pystr) (env : pipe_env) (w w' : world) (r : pystr) :
  send_to_msagent I command env w = (w', Ret r) ->
  exists lvl msg,
    log w' = log w ++ [(lvl, msg)]
    /\ (lvl = INFO <-> exists w1, round_trip I command env w = (w1, Ret r)
                                  /\ msg = U "Sent: " ++ command ++ U ", Received: " ++ r).
Proof.
  run_round_trip.
  repeat (case_match; simpl in *; simplify_eq); intros; simplify_eq;
    simpl; eexists; eexists; (split; [reflexivity |]);
    (split; [intros; try discriminate; eexists; split; reflexivity
            | intros (w1 & Hw1 & _); try discriminate; reflexivity]).
Qed.

End MoreSend.

(* ===================================================================== *)
(** * What the event routes reject and what they pass on *)
(* ===================================================================== *)

Section MoreHandlers.
Context (I : interp).

(** X: a payload that is not a JSON object is rejected by every event
    route with [AttributeError], before any pipe call or log record. *)
Theorem event_routes_reject_non_objects
    (data : pyval) (env : pipe_env) (w : world) :
  is_dict data = false ->
  comment_on_vehicle I data env w = (w, Raise (no_get data))
  /\ comment_on_crash I data env w = (w, Raise (no_get data))
  /\ comment_on_dent I data env w = (w, Raise (no_get data))
  /\ comment_on_scratch I data env w = (w, Raise (no_get data))
  /\ comment_on_surroundings I data env w = (w, Raise (no_get data)).
Proof.
  intros H. destruct data; try discriminate; repeat split; reflexivity.
Qed.

(** X: a numeric field the ['f'] format does not accept stops the crash
    and surroundings routes before any pipe call or log record. *)
Theorem ill_typed_number_stops_route
    (d : gmap pystr pyval) (env : pipe_env) (w : world) :
  (formattable (field d "speed_before" (PyInt 0)) = false ->
   exists e, comment_on_crash I (PyDict d) env w = (w, Raise e))
  /\ (formattable (field d "speed_before" (PyInt 0)) = true ->
      formattable (field d "damage_level" (PyInt 0)) = false ->
      exists e, comment_on_crash I (PyDict d) env w = (w, Raise e))
  /\ (formattable (field d "speed" (PyInt 0)) = false ->
      exists e, comment_on_surroundings I (PyDict d) env w = (w, Raise e)).
Proof.
  repeat split.
  - intros H. destruct (py_format_fixed_raises I _ 0%nat H) as [e He].
    exists e. unfold comment_on_crash. unfold_effects.
    rewrite !py_get_dict. cbv beta iota. rewrite He. reflexivity.
  - intros Hs H. destruct (py_format_fixed_raises I _ 1%nat H) as [e He].
    exists e. unfold comment_on_crash. unfold_effects.
    rewrite !py_get_dict. cbv beta iota.
    rewrite (py_format_fixed I _ 0%nat Hs), He. reflexivity.
  - intros H. destruct (py_format_fixed_raises I _ 0%nat H) as [e He].
    exists e. unfold comment_on_surroundings. unfold_effects.
    rewrite !py_get_dict. cbv beta iota. rewrite He. reflexivity.
Qed.

End MoreHandlers.

Section Injection.
Context (I : interp).

(** Once the connection is open the encoded line is written, whatever
    happens afterwards. *)
Lemma send_writes_encoded (command : pystr) (env : pipe_env) (w : world)
    (h : handle) (b : pybytes) :
  env_create env = Ret h ->
  utf8_encode (command ++ NL) = Some b ->
  exists rest,
    trace (send_to_msagent I command env w).1
    = trace w ++ connect_call :: CallWriteFile h b :: rest.
Proof.
  intros Hc He. rewrite (send_trace I command env w).
  run_round_trip. rewrite Hc. cbn [trace open_handles log record_call set_open].
  rewrite He.
  repeat (case_match; simpl in *; simplify_eq);
    eexists; simpl; rewrite <- ?List.app_assoc; reflexivity.
Qed.

Lemma dispatch_trace (command : pystr) (env : pipe_env) (w : world) :
  trace (dispatch I command env w).1 = trace (send_to_msagent I command env w).1.
Proof.
  unfold dispatch, mbind, M_bind, mret, M_ret.
  destruct (send_to_msagent I command env w) as [w1 [r|e|]]; reflexivity.
Qed.

(** X: the name is copied into the command as it is.  A name with a line
    break in it makes the scratch route write two lines in one frame: the
    command cut at the break, then a line that starts with the rest of the
    name. *)
Theorem line_break_in_name_splits_frame
    (d : gmap pystr pyval) (before after : pystr) (env : pipe_env) (w : world)
    (h : handle) (b1 b2 : pybytes) :
  d !! U "vehicle_name" = Some (PyStr (before ++ NL ++ after)) ->
  utf8_encode (U "CHAT:Just scratched the paint on my " ++ before) = Some b1 ->
  utf8_encode (after ++ U ". Make a light comment.") = Some b2 ->
  env_create env = Ret h ->
  exists rest,
    trace (comment_on_scratch I (PyDict d) env w).1
    = trace w ++ connect_call
        :: CallWriteFile h (b1 ++ [x0a] ++ b2 ++ [x0a]) :: rest.
Proof.
  intros Hd H1 H2 Hc.
  rewrite comment_on_scratch_dispatch, dispatch_trace.
  apply send_writes_encoded; [exact Hc |].
  unfold scratch_command, name_of, field. rewrite Hd. cbn [from_option]. unfold id. cbn [py_str].
  replace ((U "CHAT:Just scratched the paint on my "
              ++ (before ++ NL ++ after) ++ U ". Make a light comment.") ++ NL)
    with ((U "CHAT:Just scratched the paint on my " ++ before)
            ++ NL ++ (after ++ U ". Make a light comment.") ++ NL)
    by (rewrite <- !List.app_assoc; reflexivity).
  apply utf8_encode_app; [exact H1 |].
  apply (utf8_encode_app NL _ [x0a]); [reflexivity |].
  apply utf8_encode_app; [exact H2 | reflexivity].
Qed.

End Injection.

(* ===================================================================== *)
(** * Integers in the commands *)
(* ===================================================================== *)

Section ExactIntegers.

Lemma digits2_pos_iter_xO (p d : positive) :
  digits2_pos (Pos.iter xO p d) = (digits2_pos p + d)%positive.
Proof.
  induction d as [|d IH] using Pos.peano_ind.
  - simpl. lia.
  - rewrite Pos.iter_succ. cbn [digits2_pos]. rewrite IH. lia.
Qed.

Lemma Zpos_iter_xO (p d : positive) :
  Z.pos (Pos.iter xO p d) = Z.pos p * 2 ^ Z.pos d.
Proof.
  induction d as [|d IH] using Pos.peano_ind.
  - simpl. lia.
  - rewrite Pos.iter_succ.
    change (Z.pos (Pos.iter xO p d)~0) with (2 * Z.pos (Pos.iter xO p d)).
    rewrite IH, Pos2Z.inj_succ, Z.pow_succ_r by lia. ring.
Qed.

Lemma digits2_pos_bound (p : positive) :
  2 ^ (Z.pos (digits2_pos p) - 1) <= Z.pos p < 2 ^ Z.pos (digits2_pos p).
Proof.
  induction p as [p IH | p IH |]; cbn [digits2_pos].
  - rewrite Pos2Z.inj_succ, Pos2Z.inj_xI.
    replace (Z.succ (Z.pos (digits2_pos p)) - 1) with (Z.succ (Z.pos (digits2_pos p) - 1)) by lia.
    rewrite !Z.pow_succ_r by lia. lia.
  - rewrite Pos2Z.inj_succ. change (Z.pos p~0) with (2 * Z.pos p).
    replace (Z.succ (Z.pos (digits2_pos p)) - 1) with (Z.succ (Z.pos (digits2_pos p) - 1)) by lia.
    rewrite !Z.pow_succ_r by lia. lia.
  - simpl. lia.
Qed.

(** A mantissa of exactly 53 bits with a small exponent is left as it is
    by the rounding step. *)
Lemma binary_round_aux_53 (s : bool) (m : positive) (e : Z) :
  Z.pos (digits2_pos m) = 53 -> -1074 <= e <= 971 ->
  binary_round_aux 53 1024 s (Z.pos m) e loc_Exact = S754_finite s m e.
Proof.
  intros Hd He. unfold binary_round_aux, shr_fexp, fexp, emin.
  cbn [Zdigits2 shr_record_of_loc]. rewrite Hd.
  replace (Z.max (53 + e - 53) (3 - 1024 - 53) - e) with 0 by lia.
  cbn [shr shr_m loc_of_shr_record round_nearest_even Zdigits2 shr_record_of_loc].
  rewrite Hd.
  replace (Z.max (53 + e - 53) (3 - 1024 - 53) - e) with 0 by lia.
  cbn [shr shr_m].
  destruct (e <=? 1024 - 53) eqn:E; [reflexivity | apply Z.leb_gt in E; lia].
Qed.

(** Rounding to binary64 is exact for a magnitude below 2^53. *)
Lemma binary_round_small (s : bool) (p : positive) :
  Z.pos p < 2 ^ 53 ->
  exists m e,
    binary_round 53 1024 s p 0 = S754_finite s m e
    /\ -52 <= e <= 0 /\ Z.pos m = Z.pos p * 2 ^ (- e).
Proof.
  intros Hp.
  pose proof (digits2_pos_bound p) as [Hlo Hhi].
  assert (HD : Z.pos (digits2_pos p) <= 53).
  { destruct (Z.le_gt_cases (Z.pos (digits2_pos p)) 53) as [|Hgt]; [assumption |].
    exfalso. assert (2 ^ 53 <= 2 ^ (Z.pos (digits2_pos p) - 1))
      by (apply Z.pow_le_mono_r; lia). lia. }
  unfold binary_round, shl_align, fexp, emin.
  replace (Z.max (Z.pos (digits2_pos p) + 0 - 53) (3 - 1024 - 53))
    with (Z.pos (digits2_pos p) - 53) by lia.
  destruct (Z.pos (digits2_pos p) - 53 - 0) as [|q|q] eqn:Eq; try lia.
  - exists p, 0. rewrite binary_round_aux_53 by lia.
    repeat split; lia.
  - exists (Pos.iter xO p q), (Z.pos (digits2_pos p) - 53).
    rewrite binary_round_aux_53.
    + repeat split; try lia. rewrite Zpos_iter_xO. f_equal. f_equal. lia.
    + rewrite digits2_pos_iter_xO, Pos2Z.inj_add. lia.
    + lia.
Qed.

Lemma scaled_round_exact (prec : nat) (m p : positive) (e : Z) :
  -52 <= e <= 0 -> Z.pos m = Z.pos p * 2 ^ (- e) ->
  scaled_round prec m e = Z.pos p * 10 ^ Z.of_nat prec.
Proof.
  intros He Hm. unfold scaled_round. rewrite Hm.
  destruct (0 <=? e) eqn:E.
  - apply Z.leb_le in E. replace e with 0 by lia. simpl (- 0). 
    rewrite !Z.pow_0_r. lia.
  - assert (Hden : 0 < 2 ^ (- e)) by (apply Z.pow_pos_nonneg; lia).
    replace (Z.pos p * 2 ^ (- e) * 10 ^ Z.of_nat prec)
      with (Z.pos p * 10 ^ Z.of_nat prec * 2 ^ (- e)) by ring.
    rewrite Z.div_mul, Z.mod_mul by lia.
    replace (2 ^ (- e) <? 2 * 0) with false by (symmetry; apply Z.ltb_ge; lia).
    replace (2 * 0 =? 2 ^ (- e)) with false by (symmetry; apply Z.eqb_neq; lia).
    reflexivity.
Qed.

Lemma fixed_integer (prec : nat) (k : Z) :
  fixed prec (k * 10 ^ Z.of_nat prec) = digits k ++ zeros_after_point prec.
Proof.
  assert (Hp : 0 < 10 ^ Z.of_nat prec) by (apply Z.pow_pos_nonneg; lia).
  unfold fixed, zeros_after_point. rewrite Z.div_mul, Z.mod_mul by lia.
  f_equal. destruct prec as [|n]; [reflexivity |]. f_equal.
  unfold zero_pad. change (digits 0) with [48]. cbn [length].
  replace (S n - 1)%nat with n by lia.
  rewrite <- repeat_cons. reflexivity.
Qed.

(** Formatting an integer below 2^53 in magnitude with ['.Nf'] shows the
    integer itself, followed by the point and [N] zeros. *)
Lemma format_int_f_exact (prec : nat) (n : Z) :
  - 2 ^ 53 < n < 2 ^ 53 ->
  format_int_f prec n = Ret (str_int n ++ zeros_after_point prec).
Proof.
  intros Hn. unfold format_int_f, int_to_float, str_int.
  destruct n as [|p|p]; cbn [binary_normalize].
  - change (0 <? 0) with false. cbn [format_f sign_str app].
    rewrite <- (fixed_integer prec 0). reflexivity.
  - change (Z.pos p <? 0) with false.
    destruct (binary_round_small false p) as (m & e & -> & He & Hm); [lia |].
    cbn [format_f sign_str app].
    rewrite (scaled_round_exact prec m p e He Hm), fixed_integer. reflexivity.
  - change (Z.neg p <? 0) with true. change (- Z.neg p) with (Z.pos p).
    destruct (binary_round_small true p) as (m & e & -> & He & Hm); [lia |].
    cbn [format_f sign_str].
    rewrite (scaled_round_exact prec m p e He Hm), fixed_integer.
    rewrite <- List.app_assoc. reflexivity.
Qed.

(** X6.  An integer speed or damage level below 2^53 in magnitude appears
    in the crash and surroundings commands digit for digit: the speed as
    the integer itself, the damage level as the integer followed by ".0".
    No rounding takes place on the way through [float]. *)
Theorem routes_show_integers_exactly
    (I : interp) (d : gmap pystr pyval) (name : pystr) (n m : Z)
    (env : pipe_env) (w : world) :
  d !! U "vehicle_name" = Some (PyStr name) ->
  - 2 ^ 53 < n < 2 ^ 53 ->
  - 2 ^ 53 < m < 2 ^ 53 ->
  (d !! U "speed_before" = Some (PyInt n) ->
   d !! U "damage_level" = Some (PyInt m) ->
   comment_on_crash I (PyDict d) env w
   = dispatch I
       (U "CHAT:I just crashed my " ++ name ++ U " at " ++ str_int n
          ++ U " km/h! The damage is pretty bad (" ++ str_int m
          ++ U ".0). React dramatically!") env w)
  /\ (d !! U "speed" = Some (PyInt n) ->
      d !! U "location" = None ->
      comment_on_surroundings I (PyDict d) env w
      = dispatch I
          (U "CHAT:I'm driving my " ++ name ++ U " at " ++ str_int n
             ++ U " km/h in Unknown. Comment on the scene!") env w).
Proof.
  intros Hname Hn Hm.
  assert (Fn : formattable (PyInt n) = true).
  { unfold formattable. pose proof (format_int_f_exact 0 n Hn) as H.
    unfold format_int_f in H. destruct (int_to_float n); [reflexivity | discriminate]. }
  assert (Fm : formattable (PyInt m) = true).
  { unfold formattable. pose proof (format_int_f_exact 0 m Hm) as H.
    unfold format_int_f in H. destruct (int_to_float m); [reflexivity | discriminate]. }
  assert (Tn : forall prec, format_f prec (to_float (PyInt n))
                            = str_int n ++ zeros_after_point prec).
  { intros prec. pose proof (format_int_f_exact prec n Hn) as H.
    unfold format_int_f, to_float in *.
    destruct (int_to_float n); [injection H as H; exact H | discriminate]. }
  assert (Tm : forall prec, format_f prec (to_float (PyInt m))
                            = str_int m ++ zeros_after_point prec).
  { intros prec. pose proof (format_int_f_exact prec m Hm) as H.
    unfold format_int_f, to_float in *.
    destruct (int_to_float m); [injection H as H; exact H | discriminate]. }
  split.
  - intros Hs Hd.
    rewrite comment_on_crash_dispatch
      by (unfold field; rewrite ?Hs, ?Hd; assumption).
    unfold crash_command, name_of, number_of, field. rewrite Hname, Hs, Hd.
    cbn [from_option]. unfold id. cbn [py_str]. rewrite Tn, Tm.
    cbn [zeros_after_point repeat]. rewrite app_nil_r.
    rewrite <- !List.app_assoc. reflexivity.
  - intros Hs Hl.
    rewrite comment_on_surroundings_dispatch
      by (unfold field; rewrite ?Hs; assumption).
    unfold surroundings_command, name_of, number_of, field.
    rewrite Hname, Hs, Hl.
    cbn [from_option]. unfold id. cbn [py_str]. rewrite Tn.
    cbn [zeros_after_point]. rewrite app_nil_r. reflexivity.
Qed.

End ExactIntegers.
